(** * The consultation request/response pipeline of the MachinaWorks website

    A shallow embedding of the TypeScript sources of the pipeline:

    - the consultation gateway, the [POST] handler that calls
      [http://localhost:8000/api/consult] (second document of
      [website/app/dashboard/DashboardContent.tsx]): [Consult.POST];
    - the notify route ([unnamed/part_003]): [Notify.POST];
    - the login route ([unnamed/part_004]): [Login.POST];
    - the signup route ([website/app/api/auth/signup/route.ts]): [Signup.POST];
    - the consultation form ([website/components/ConsultationForm.tsx]):
      the submission transport [Form.handleSubmit] and the business impact
      renderer [Form.render_results].

    Request bodies are JSON values as [JSON.parse] yields them. The handlers
    are written in a small error-and-trace monad: a run yields the events it
    emitted (outbound calls, console output) in program order, and then a
    thrown error or a value. The services outside the repository (the
    reasoning service behind [fetch], the identity client) are arguments of
    the handlers. *)

From Stdlib Require Import String Ascii List ZArith Bool Lia.
From Stdlib Require Import DecimalString.
Set Warnings "-register-all".
Import ListNotations.
Open Scope string_scope.

(* ================================================================== *)
(** ** JavaScript values *)
(* ================================================================== *)

(** What the handlers need from the JavaScript engine about numbers and
    about [String.prototype.toUpperCase]; both are outside the repository. *)
Class JsRuntime (number : Type) : Type := {
  (** [ToBoolean] on a number: false exactly for [+0], [-0] and [NaN]. *)
  number_truthy : number -> bool;
  (** [Number::toString]. *)
  number_to_string : number -> string;
  (** [String.prototype.toUpperCase]. *)
  toUpperCase : string -> string
}.

Module Js.

(** A value produced by [JSON.parse]. The properties of an object are kept
    in source order; on a repeated key the first binding is the property. *)
Inductive json (number : Type) : Type :=
| JNull
| JBool (b : bool)
| JNum (n : number)
| JStr (s : string)
| JArr (items : list (json number))
| JObj (props : list (string * json number)).

Arguments JNull {number}.
Arguments JBool {number} b.
Arguments JNum {number} n.
Arguments JStr {number} s.
Arguments JArr {number} items.
Arguments JObj {number} props.

(** A JavaScript value in a handler: [None] is [undefined]. *)
Definition value (number : Type) : Type := option (json number).

Section Values.
Context {number : Type} `{RT : JsRuntime number}.

Fixpoint lookup (k : string) (props : list (string * json number)) : value number :=
  match props with
  | [] => None
  | (k', v) :: rest => if String.eqb k k' then Some v else lookup k rest
  end.

Definition has_own (k : string) (props : list (string * json number)) : bool :=
  match lookup k props with Some _ => true | None => false end.

(** [v.k] for a value [v] that is neither [null] nor [undefined], and for
    a key [k] that no prototype defines (every key read in the sources). *)
Definition get (v : json number) (k : string) : value number :=
  match v with
  | JObj props => lookup k props
  | _ => None
  end.

(** [ToBoolean]. *)
Definition truthy (v : value number) : bool :=
  match v with
  | None => false
  | Some JNull => false
  | Some (JBool b) => b
  | Some (JNum n) => number_truthy n
  | Some (JStr s) => negb (String.eqb s "")
  | Some (JArr _) => true
  | Some (JObj _) => true
  end.

(** [ToString] on a parsed JSON value, as a template literal applies it.
    [None] is the [TypeError] of [OrdinaryToPrimitive]: an object with an
    own [toString] property (never callable in parsed JSON) has no
    primitive value. Arrays go through [Array.prototype.join]. *)
Fixpoint ToString_json (v : json number) : option string :=
  match v with
  | JNull => Some "null"
  | JBool b => Some (if b then "true" else "false")
  | JNum n => Some (number_to_string n)
  | JStr s => Some s
  | JArr items =>
      (fix join (l : list (json number)) : option string :=
         match l with
         | [] => Some ""
         | x :: rest =>
             match (match x with JNull => Some "" | _ => ToString_json x end) with
             | None => None
             | Some sx =>
                 match rest with
                 | [] => Some sx
                 | _ :: _ => option_map (fun sr => sx ++ "," ++ sr) (join rest)
                 end
             end
         end) items
  | JObj props => if has_own "toString" props then None else Some "[object Object]"
  end.

Definition ToString (v : value number) : option string :=
  match v with
  | None => Some "undefined"
  | Some j => ToString_json j
  end.

(** The object literal [{ k1: v1, ... }] as [JSON.stringify] serializes it:
    properties whose value is [undefined] are dropped. *)
Fixpoint stringify_fields (fields : list (string * value number)) : list (string * json number) :=
  match fields with
  | [] => []
  | (k, Some v) :: rest => (k, v) :: stringify_fields rest
  | (_, None) :: rest => stringify_fields rest
  end.

(** A value of the wire contract's type [string | undefined]. *)
Definition optional_string (v : value number) : bool :=
  match v with
  | None => true
  | Some (JStr _) => true
  | Some _ => false
  end.

End Values.
End Js.

Import Js.

(** [String.prototype.includes]. *)
Fixpoint includes (needle hay : string) : bool :=
  String.prefix needle hay
  || match hay with
     | EmptyString => false
     | String _ rest => includes needle rest
     end.

(* ================================================================== *)
(** ** Effects: exceptions and the trace of observable events *)
(* ================================================================== *)

Module Effects.

(** A thrown value. *)
Inductive error : Type :=
| TypeError (what : string)   (** raised by the engine *)
| Rejection (reason : string) (** a promise rejected by the environment *)
| Error (message : string).   (** [new Error(message)] *)

(** An argument of [console.log] / [console.error]. *)
Inductive logged (number : Type) : Type :=
| LStr (s : string)
| LVal (v : value number)
| LFields (fields : list (string * value number))
| LErr (e : error).

Arguments LStr {number} s.
Arguments LVal {number} v.
Arguments LFields {number} fields.
Arguments LErr {number} e.

Inductive event (number : Type) : Type :=
| Fetch (url : string) (body : json number)
| SignUp (email password full_name : value number)
| SignInWithPassword (email password : value number)
| ConsoleLog (args : list (logged number))
| ConsoleError (args : list (logged number)).

Arguments Fetch {number} url body.
Arguments SignUp {number} email password full_name.
Arguments SignInWithPassword {number} email password.
Arguments ConsoleLog {number} args.
Arguments ConsoleError {number} args.

(** A call that leaves the process. *)
Definition is_external_call {number} (e : event number) : bool :=
  match e with
  | Fetch _ _ | SignUp _ _ _ | SignInWithPassword _ _ => true
  | ConsoleLog _ | ConsoleError _ => false
  end.

Definition external_calls {number} (tr : list (event number)) : nat :=
  List.length (filter is_external_call tr).

(** A computation: the events it emitted, then a thrown error or a value. *)
Definition M (number A : Type) : Type := list (event number) * (error + A).

Section Monad.
Context {number : Type}.

Definition ret {A} (a : A) : M number A := ([], inr a).

Definition throw {A} (e : error) : M number A := ([], inl e).

Definition bind {A B} (m : M number A) (k : A -> M number B) : M number B :=
  match m with
  | (tr, inl e) => (tr, inl e)
  | (tr, inr a) => let (tr', r) := k a in ((tr ++ tr')%list, r)
  end.

(** [try { m } catch (e) { h e }]. *)
Definition try_catch {A} (m : M number A) (h : error -> M number A) : M number A :=
  match m with
  | (tr, inl e) => let (tr', r) := h e in ((tr ++ tr')%list, r)
  | (tr, inr a) => (tr, inr a)
  end.

Definition emit (e : event number) : M number unit := ([e], inr tt).

(** [await p] for a promise settled by the environment, after event [e]. *)
Definition call {A} (e : event number) (outcome : error + A) : M number A := ([e], outcome).

(** [await p] for a promise that involves no outbound call. *)
Definition await {A} (outcome : error + A) : M number A := ([], outcome).

Definition console_log (args : list (logged number)) : M number unit := emit (ConsoleLog args).
Definition console_error (args : list (logged number)) : M number unit := emit (ConsoleError args).

Definition trace {A} (m : M number A) : list (event number) := fst m.
Definition outcome {A} (m : M number A) : error + A := snd m.

End Monad.

Declare Scope js_scope.
Delimit Scope js_scope with js.
Notation "x <- m ;; k" := (bind m (fun x => k))
  (at level 61, m at next level, right associativity) : js_scope.
Notation "' pat <- m ;; k" := (bind m (fun pat => k))
  (at level 61, pat pattern, m at next level, right associativity) : js_scope.
Notation "m ;;; k" := (bind m (fun _ => k))
  (at level 61, right associativity) : js_scope.

End Effects.

Import Effects.
Open Scope js_scope.

Section Templates.
Context {number : Type} `{RT : JsRuntime number}.

(** [`${v}`]: [ToString], or the engine's [TypeError]. *)
Definition interpolate (v : value number) : M number string :=
  match ToString v with
  | Some s => ret s
  | None => throw (TypeError "Cannot convert object to primitive value")
  end.

End Templates.

(* ================================================================== *)
(** ** HTTP *)
(* ================================================================== *)

Module Http.

(** What [NextResponse.json(body, { status })] builds. *)
Record response (number : Type) : Type := NextResponse_json {
  body : json number;
  status : Z
}.
Arguments NextResponse_json {number} body status.
Arguments body {number} r.
Arguments status {number} r.

(** What [await fetch(...)] resolves to: the status line and the outcome
    of [await response.json()]. *)
Record fetched (number : Type) : Type := Fetched {
  fetched_status : Z;
  statusText : string;
  fetched_json : error + json number
}.
Arguments Fetched {number} fetched_status statusText fetched_json.
Arguments fetched_status {number} f.
Arguments statusText {number} f.
Arguments fetched_json {number} f.

(** [response.ok]: the status is in the range 200-299. *)
Definition ok {number} (r : fetched number) : bool :=
  ((200 <=? fetched_status r) && (fetched_status r <=? 299))%Z.

(** An inbound request: the outcome of [await request.json()]. *)
Definition request (number : Type) : Type := error + json number.

(** A remote HTTP service: what a POST of the given JSON body leads to. *)
Definition service (number : Type) : Type := json number -> error + fetched number.

Definition is_2xx (s : Z) : bool := ((200 <=? s) && (s <=? 299))%Z.
Definition is_4xx (s : Z) : bool := ((400 <=? s) && (s <=? 499))%Z.

End Http.

Import Http.

(* ================================================================== *)
(** ** The consultation gateway: [POST /api/consult] *)
(* ================================================================== *)

Module Consult.
Section Gateway.
Context {number : Type} `{RT : JsRuntime number}.

Definition backend_url : string := "http://localhost:8000/api/consult".

(** The template literal of [mockResponse.recommendations]. *)
Definition recommendations_text (industry : string) : string :=
  "Based on your problem in the " ++ industry ++ " industry, I recommend implementing an AI-powered solution with the following components:

1. **Natural Language Processing (NLP)** for automated text analysis
2. **Machine Learning Models** for pattern recognition and prediction
3. **Retrieval-Augmented Generation (RAG)** for context-aware responses
4. **Automated Classification** for efficient routing

Key Technologies:
- Large Language Models (LLMs) for understanding and generation
- Vector databases for semantic search
- Real-time processing pipeline
- Integration with existing systems

This solution will address your specific challenges while providing scalability and measurable business impact.".

(** The template literal of [mockResponse.businessImpact.cost_savings]. *)
Definition cost_savings_text (industry companySize : string) : string :=
  "Expected cost reduction of 20-30% through automation. For a " ++ companySize ++ " company in " ++ industry ++ ", this typically translates to $15-25K monthly savings by reducing manual processing time and operational overhead.".

(** The [mockResponse] object literal, for the strings that the template
    literals obtain from [industry] and [companySize]. *)
Definition mockResponse (industry companySize : string) : json number :=
  JObj [
    ("recommendations", JStr (recommendations_text industry));
    ("businessImpact", JObj [
      ("cost_savings", JStr (cost_savings_text industry companySize));
      ("revenue_potential", JStr ("Revenue growth potential of 5-10% through improved efficiency and customer satisfaction. Enhanced capabilities can lead to faster service delivery and better customer retention, potentially generating an additional $10-20K monthly."));
      ("roi_estimate", JStr ("Investment: $100-150K for implementation. Expected ROI: 150-200% annually. Break-even point: 6-9 months. First year savings: $180-300K."));
      ("implementation_timeline", JStr ("Total timeline: 4-6 months
- Planning & requirements: 2-4 weeks
- Development & integration: 8-12 weeks  
- Testing & QA: 4-6 weeks
- Deployment & training: 2-4 weeks"));
      ("key_metrics", JArr [
        JStr "Cost per transaction reduction";
        JStr "Processing time improvement";
        JStr "Customer satisfaction score (CSAT)";
        JStr "First response time (FRT)";
        JStr "Resolution rate";
        JStr "ROI percentage";
        JStr "User adoption rate"
      ])
    ])
  ].

(** [const { problem, industry, companySize, email } = body]. *)
Definition destructure (body : json number)
  : M number (value number * value number * value number * value number) :=
  match body with
  | JNull => throw (TypeError "Cannot destructure property 'problem' of 'body' as it is null.")
  | _ => ret (get body "problem", get body "industry", get body "companySize", get body "email")
  end.

(** The body of the outbound call:
    [JSON.stringify({ problem, industry, companySize, email })]. *)
Definition payload (problem industry companySize email : value number) : json number :=
  JObj (stringify_fields
          [("problem", problem); ("industry", industry);
           ("companySize", companySize); ("email", email)]).

(** The inner [try] block. [Some r] is [return r]. *)
Definition delegate (backend : service number)
    (problem industry companySize email : value number)
  : M number (option (response number)) :=
  let body := payload problem industry companySize email in
  response <- call (Fetch backend_url body) (backend body) ;;
  (if negb (ok response)
   then throw (Error ("Backend error: " ++ statusText response))
   else ret tt) ;;;
  data <- await (fetched_json response) ;;
  ret (Some (NextResponse_json data 200)).

(** The statements after the inner [try]/[catch]. The template literals
    convert [industry] first (in [recommendations]) and [companySize] next
    (in [cost_savings]); converting [industry] again yields the same string. *)
Definition fallback (problem industry companySize email : value number)
  : M number (response number) :=
  i <- interpolate industry ;;
  c <- interpolate companySize ;;
  let mock := mockResponse i c in
  console_log [LStr "Consultation request:";
               LFields [("problem", problem); ("industry", industry);
                        ("companySize", companySize); ("email", email)]] ;;;
  ret (NextResponse_json mock 200).

Definition POST (req : request number) (backend : service number)
  : M number (response number) :=
  try_catch
    (body <- await req ;;
     '(problem, industry, companySize, email) <- destructure body ;;
     returned <-
       try_catch
         (delegate backend problem industry companySize email)
         (fun backendError =>
            console_error [LStr "Backend connection error:"; LErr backendError] ;;;
            console_log [LStr "Using fallback mock data"] ;;;
            ret None) ;;
     match returned with
     | Some r => ret r
     | None => fallback problem industry companySize email
     end)
    (fun error =>
       console_error [LStr "Error processing consultation:"; LErr error] ;;;
       ret (NextResponse_json
              (JObj [("error", JStr "Failed to process consultation request")]) 500)).

End Gateway.
End Consult.

(** [String(error)] for a caught value. *)
Definition String_of_error (e : error) : string :=
  match e with
  | TypeError what => "TypeError: " ++ what
  | Rejection reason => reason
  | Error message => if String.eqb message "" then "Error" else "Error: " ++ message
  end.

(* ================================================================== *)
(** ** The notify route: [POST /api/forms/notify] *)
(* ================================================================== *)

Module Notify.
Section Route.
Context {number : Type} `{RT : JsRuntime number}.

(** [const { formData, type } = await request.json()]. *)
Definition destructure (body : json number) : M number (value number * value number) :=
  match body with
  | JNull => throw (TypeError "Cannot destructure property 'formData' of null")
  | _ => ret (get body "formData", get body "type")
  end.

(** [type.toUpperCase()], for a truthy [type]. Only a string has the
    method; a property of that name in parsed JSON is never callable. *)
Definition type_toUpperCase (type : value number) : M number string :=
  match type with
  | Some (JStr s) => ret (toUpperCase s)
  | _ => throw (TypeError "type.toUpperCase is not a function")
  end.

(** [formData.email], for a truthy [formData]. *)
Definition formData_email (formData : value number) : value number :=
  match formData with
  | Some v => get v "email"
  | None => None
  end.

Definition POST (req : request number) : M number (response number) :=
  try_catch
    (body <- await req ;;
     '(formData, type) <- destructure body ;;
     if negb (truthy formData) || negb (truthy type)
     then ret (NextResponse_json (JObj [("error", JStr "Missing required fields")]) 400)
     else
       TYPE <- type_toUpperCase type ;;
       email <- interpolate (formData_email formData) ;;
       console_log [LStr ("[" ++ TYPE ++ "] Submission from " ++ email ++ ":");
                    LVal formData] ;;;
       ret (NextResponse_json
              (JObj [("success", JBool true); ("message", JStr "Submission received")]) 200))
    (fun error =>
       console_error [LStr "Error:"; LErr error] ;;;
       ret (NextResponse_json (JObj [("error", JStr "Failed to process submission")]) 500)).

End Route.
End Notify.

(* ================================================================== *)
(** ** The identity service and the auth routes *)
(* ================================================================== *)

Module Identity.

(** What [supabase.auth.signUp] / [signInWithPassword] resolve to:
    [{ data: { user, session }, error }], with [error.message] when
    [error] is not [null]. *)
Record auth_result (number : Type) : Type := AuthResult {
  data_user : json number;
  data_session : json number;
  auth_error : option string
}.
Arguments AuthResult {number} data_user data_session auth_error.
Arguments data_user {number} a.
Arguments data_session {number} a.
Arguments auth_error {number} a.

Definition sign_in (number : Type) : Type :=
  value number -> value number -> error + auth_result number.
Definition sign_up (number : Type) : Type :=
  value number -> value number -> value number -> error + auth_result number.

(** [a || b] on strings. *)
Definition or_default (a b : string) : string :=
  if String.eqb a "" then b else a.

End Identity.

Import Identity.

Module Login.
Section Route.
Context {number : Type} `{RT : JsRuntime number}.

Definition destructure (body : json number) : M number (value number * value number) :=
  match body with
  | JNull => throw (TypeError "Cannot destructure property 'email' of null")
  | _ => ret (get body "email", get body "password")
  end.

Definition POST (req : request number) (signInWithPassword : sign_in number)
  : M number (response number) :=
  try_catch
    (body <- await req ;;
     '(email, password) <- destructure body ;;
     if negb (truthy email) || negb (truthy password)
     then ret (NextResponse_json (JObj [("error", JStr "Email and password are required")]) 400)
     else
       r <- call (SignInWithPassword email password) (signInWithPassword email password) ;;
       match auth_error r with
       | Some message =>
           console_error [LStr "Supabase login error:"; LStr message] ;;;
           ret (NextResponse_json
                  (JObj [("error", JStr (or_default message "Invalid email or password"))]) 401)
       | None =>
           if negb (truthy (Some (data_user r)))
           then ret (NextResponse_json (JObj [("error", JStr "Login failed - no user data")]) 401)
           else
             console_log [LStr "Login successful for:"; LVal email] ;;;
             ret (NextResponse_json
                    (JObj [("success", JBool true); ("user", data_user r);
                           ("session", data_session r)]) 200)
       end)
    (fun error =>
       console_error [LStr "Login error:"; LErr error] ;;;
       ret (NextResponse_json
              (JObj [("error", JStr ("Internal server error: " ++ String_of_error error))]) 500)).

End Route.
End Login.

Module Signup.
Section Route.
Context {number : Type} `{RT : JsRuntime number}.

Definition destructure (body : json number)
  : M number (value number * value number * value number) :=
  match body with
  | JNull => throw (TypeError "Cannot destructure property 'email' of null")
  | _ => ret (get body "email", get body "password", get body "fullName")
  end.

Definition POST (req : request number) (signUp : sign_up number)
  : M number (response number) :=
  try_catch
    (body <- await req ;;
     '(email, password, fullName) <- destructure body ;;
     if negb (truthy email) || negb (truthy password) || negb (truthy fullName)
     then ret (NextResponse_json (JObj [("error", JStr "Missing required fields")]) 400)
     else
       r <- call (SignUp email password fullName) (signUp email password fullName) ;;
       match auth_error r with
       | Some message =>
           console_error [LStr "Supabase signup error:"; LStr message] ;;;
           ret (NextResponse_json (JObj [("error", JStr (or_default message "Signup failed"))]) 400)
       | None =>
           console_log [LStr "Signup successful for:"; LVal email] ;;;
           ret (NextResponse_json
                  (JObj [("success", JBool true); ("user", data_user r);
                         ("message", JStr "Signup successful!")]) 201)
       end)
    (fun error =>
       console_error [LStr "Signup error:"; LErr error] ;;;
       ret (NextResponse_json
              (JObj [("error", JStr ("Internal server error: " ++ String_of_error error))]) 500)).

End Route.
End Signup.

(* ================================================================== *)
(** ** The consultation form: submission transport and renderer *)
(* ================================================================== *)

Module Form.

(** The [formData] state of the component. *)
Record form_data : Type := FormData {
  problem : string;
  industry : string;
  companySize : string;
  email : string
}.

(** The other three [useState] cells. [result] starts as [null]. *)
Record state (number : Type) : Type := State {
  loading : bool;
  result : json number;
  error : string
}.
Arguments State {number} loading result error.
Arguments loading {number} s.
Arguments result {number} s.
Arguments error {number} s.

(** What the component shows under the form. Headings are given without
    their leading pictograph. *)
Inductive block : Type :=
| Raw (text : string)                         (** a bare text child *)
| AnalysisComplete                            (** the success message *)
| Card (heading : string) (text : string)     (** a heading over a text child *)
| Bullets (heading : string) (items : list string) (** a heading over [<li>] items *)
| ReadyToImplement.                           (** the call to action *)

Record view : Type := View {
  submit_disabled : bool;
  error_banner : option string;
  results : list block
}.

Section Component.
Context {number : Type} `{RT : JsRuntime number}.

Definition initial : state number := State false JNull "".

Definition setLoading (b : bool) (st : state number) : state number :=
  State b (result st) (error st).
Definition setError (msg : string) (st : state number) : state number :=
  State (loading st) (result st) msg.
Definition setResult (data : json number) (st : state number) : state number :=
  State (loading st) data (error st).

(** [JSON.stringify(formData)]. *)
Definition stringify (formData : form_data) : json number :=
  JObj [("problem", JStr (problem formData)); ("industry", JStr (industry formData));
        ("companySize", JStr (companySize formData)); ("email", JStr (email formData))].

(** The [try] block of [handleSubmit], up to the value given to [setResult]. *)
Definition submit (formData : form_data) (server : service number) : M number (json number) :=
  response <- call (Fetch "/api/consult" (stringify formData)) (server (stringify formData)) ;;
  (if negb (ok response)
   then throw (Error "Failed to get consultation")
   else ret tt) ;;;
  data <- await (fetched_json response) ;;
  ret data.

(** [handleSubmit]: the events and the state once the handler has run. *)
Definition handleSubmit (formData : form_data) (server : service number) (st : state number)
  : list (event number) * state number :=
  let st := setLoading true st in
  let st := setError "" st in
  let st := setResult JNull st in
  let '(tr, st) :=
    match submit formData server with
    | (tr, inr data) => (tr, setResult data st)
    | (tr, inl err) =>
        ((tr ++ [ConsoleError [LErr err]])%list,
         setError "Failed to process consultation. Please try again." st)
    end in
  (tr, setLoading false st).

(** The text React shows for a child value; [None] for an object, which
    is not a valid React child. [null], [undefined] and booleans show
    nothing, an array shows its items. *)
Fixpoint child_text (v : json number) : option string :=
  match v with
  | JNull => Some ""
  | JBool _ => Some ""
  | JNum n => Some (number_to_string n)
  | JStr s => Some s
  | JArr items =>
      (fix all (l : list (json number)) : option string :=
         match l with
         | [] => Some ""
         | x :: rest =>
             match child_text x, all rest with
             | Some sx, Some sr => Some (sx ++ sr)
             | _, _ => None
             end
         end) items
  | JObj _ => None
  end.

Definition child (v : value number) : M number string :=
  match v with
  | None => ret ""
  | Some j =>
      match child_text j with
      | Some s => ret s
      | None => throw (Error "Objects are not valid as a React child")
      end
  end.

Fixpoint children (l : list (json number)) : M number (list string) :=
  match l with
  | [] => ret []
  | x :: rest =>
      s <- child (Some x) ;;
      ss <- children rest ;;
      ret (s :: ss)
  end.

(** [{v && ...}] for a falsy [v]: the value itself is the child. *)
Definition falsy_child (v : value number) : M number (list block) :=
  s <- child v ;;
  ret (if String.eqb s "" then [] else [Raw s]).

(** [slot.map(...)]: only an array has the method. *)
Definition map_items (slot : value number) : M number (list (json number)) :=
  match slot with
  | Some (JArr items) => ret items
  | None => throw (TypeError "Cannot read properties of undefined (reading 'map')")
  | Some JNull => throw (TypeError "Cannot read properties of null (reading 'map')")
  | Some _ => throw (TypeError "map is not a function")
  end.

(** [bi.slot], for a truthy [bi]. *)
Definition slot_of (bi : value number) (slot : string) : value number :=
  match bi with
  | Some v => get v slot
  | None => None
  end.

(** The three [.map] calls, made while the element tree is built. *)
Definition impact_lists (bi : value number)
  : M number (list (json number) * list (json number) * list (json number)) :=
  metrics <- map_items (slot_of bi "key_metrics") ;;
  factors <- map_items (slot_of bi "success_factors") ;;
  challenges <- map_items (slot_of bi "potential_challenges") ;;
  ret (metrics, factors, challenges).

(** The blocks of the business impact card, in display order. *)
Definition impact_blocks (bi : value number)
    (lists : list (json number) * list (json number) * list (json number))
  : M number (list block) :=
  let '(metrics, factors, challenges) := lists in
  cost <- child (slot_of bi "cost_savings") ;;
  revenue <- child (slot_of bi "revenue_potential") ;;
  time <- child (slot_of bi "time_savings") ;;
  roi <- child (slot_of bi "roi_estimate") ;;
  risk <- child (slot_of bi "risk_reduction") ;;
  advantage <- child (slot_of bi "competitive_advantage") ;;
  timeline <- child (slot_of bi "implementation_timeline") ;;
  resources <- child (slot_of bi "resource_requirements") ;;
  ms <- children metrics ;;
  fs <- children factors ;;
  cs <- children challenges ;;
  ret [Card "Cost Savings" cost;
       Card "Revenue Potential" revenue;
       Card "Time Savings" time;
       Card "ROI Estimate" roi;
       Card "Risk Reduction" risk;
       Card "Competitive Advantage" advantage;
       Card "Implementation Timeline" timeline;
       Card "Resource Requirements" resources;
       Bullets "Key Success Metrics" ms;
       Bullets "Success Factors" fs;
       Bullets "Potential Challenges" cs].

(** [{result.businessImpact && (...)}]. *)
Definition render_impact (bi : value number) : M number (list block) :=
  if truthy bi
  then lists <- impact_lists bi ;; impact_blocks bi lists
  else falsy_child bi.

(** [{result && (...)}]: building the element tree makes the [.map] calls
    first; the children are then shown in document order. *)
Definition render_results (result : json number) : M number (list block) :=
  if truthy (Some result)
  then
    let bi := get result "businessImpact" in
    lists <- (if truthy bi then l <- impact_lists bi ;; ret (Some l) else ret None) ;;
    recommendations <- child (get result "recommendations") ;;
    impact <- match lists with
              | Some l => impact_blocks bi l
              | None => falsy_child bi
              end ;;
    ret ([AnalysisComplete; Card "AI Solution Recommendations" recommendations]
           ++ impact ++ [ReadyToImplement])%list
  else falsy_child (Some result).

(** The component's render function, for the three state cells. *)
Definition render (st : state number) : M number view :=
  blocks <- render_results (result st) ;;
  ret (View (loading st)
            (if String.eqb (error st) "" then None else Some (error st))
            blocks).

End Component.
End Form.

(* ================================================================== *)
(** ** The auth page: [website/app/auth/page.tsx] *)
(* ================================================================== *)

Module Auth.

(** The [mode] cell. *)
Inductive auth_mode : Type := login | signup.

Record form_data : Type := FormData {
  email : string;
  password : string;
  fullName : string
}.

(** The state cells that [handleSubmit] reads or writes. [error] holds
    whatever [setError] was given: the page passes [data.error] on. *)
Record state (number : Type) : Type := State {
  mode : auth_mode;
  loading : bool;
  error : json number;
  success : string;
  formData : form_data
}.
Arguments State {number} mode loading error success formData.
Arguments mode {number} s.
Arguments loading {number} s.
Arguments error {number} s.
Arguments success {number} s.
Arguments formData {number} s.

(** What [handleSubmit] does to the browser, in program order. The timer
    callback closes over [mode], which identifies it. *)
Inductive effect (number : Type) : Type :=
| Post (url : string) (body : json number)
| SetItem (key value : string)
| SetTimeout (callback : auth_mode) (delay : Z).
Arguments Post {number} url body.
Arguments SetItem {number} key value.
Arguments SetTimeout {number} callback delay.

Section Page.
Context {number : Type} `{RT : JsRuntime number}.

Definition initial : state number :=
  State login false (JStr "") "" (FormData "" "" "").

Definition setLoading (b : bool) (st : state number) : state number :=
  State (mode st) b (error st) (success st) (formData st).
Definition setError (e : json number) (st : state number) : state number :=
  State (mode st) (loading st) e (success st) (formData st).
Definition setSuccess (msg : string) (st : state number) : state number :=
  State (mode st) (loading st) (error st) msg (formData st).
Definition setMode (m : auth_mode) (st : state number) : state number :=
  State m (loading st) (error st) (success st) (formData st).
Definition setFormData (f : form_data) (st : state number) : state number :=
  State (mode st) (loading st) (error st) (success st) f.

Definition endpoint (m : auth_mode) : string :=
  match m with
  | login => "/api/auth/login"
  | signup => "/api/auth/signup"
  end.

(** The body of the request: [{ email, password }] on login, the whole
    [formData] on signup. *)
Definition request_body (m : auth_mode) (f : form_data) : json number :=
  match m with
  | login => JObj [("email", JStr (email f)); ("password", JStr (password f))]
  | signup => JObj [("email", JStr (email f)); ("password", JStr (password f));
                    ("fullName", JStr (fullName f))]
  end.

Definition success_message (m : auth_mode) : string :=
  match m with
  | login => "Login successful! Redirecting..."
  | signup => "Signup successful! Check your email to verify."
  end.

(** [a || b]. *)
Definition or_else (a : value number) (b : json number) : json number :=
  match a with
  | Some v => if truthy a then v else b
  | None => b
  end.

(** The [try] block: the effects, the state, and whether it threw. *)
Definition try_block (server : string -> service number) (st : state number)
  : list (effect number) * state number * (Effects.error + unit) :=
  let m := mode st in
  let sent := request_body m (formData st) in
  let post := Post (endpoint m) sent in
  match server (endpoint m) sent with
  | inl e => ([post], st, inl e)
  | inr response =>
      match fetched_json response with
      | inl e => ([post], st, inl e)
      | inr data =>
          if negb (ok response)
          then
            match data with
            | JNull =>
                ([post], st,
                 inl (TypeError "Cannot read properties of null (reading 'error')"))
            | _ =>
                ([post],
                 setError (or_else (get data "error") (JStr "Authentication failed")) st,
                 inr tt)
            end
          else
            let st := setSuccess (success_message m) st in
            match data with
            | JNull =>
                ([post], st,
                 inl (TypeError "Cannot read properties of null (reading 'session')"))
            | _ =>
                let session := get data "session" in
                if truthy session
                then
                  match ToString (Form.slot_of session "access_token") with
                  | Some token =>
                      ([post; SetItem "auth_token" token; SetTimeout m 1500], st, inr tt)
                  | None =>
                      ([post], st, inl (TypeError "Cannot convert object to primitive value"))
                  end
                else ([post; SetTimeout m 1500], st, inr tt)
            end
      end
  end.

(** [handleSubmit]: the effects and the state once the handler has run. *)
Definition handleSubmit (server : string -> service number) (st : state number)
  : list (effect number) * state number :=
  let st := setLoading true st in
  let st := setError (JStr "") st in
  let st := setSuccess "" st in
  let '(effects, st, thrown) := try_block server st in
  let st := match thrown with
            | inl _ => setError (JStr "An error occurred. Please try again.") st
            | inr _ => st
            end in
  (effects, setLoading false st).

(** The timer callback: the route it pushes, if any, and the state. *)
Definition timeout_callback (m : auth_mode) (st : state number)
  : option string * state number :=
  match m with
  | login => (Some "/", st)
  | signup => (None, setFormData (FormData "" "" "") (setMode login st))
  end.

(** The handler of the toggle button under the form. *)
Definition toggle_mode (st : state number) : state number :=
  setSuccess "" (setError (JStr "")
    (setMode (match mode st with login => signup | signup => login end) st)).

End Page.
End Auth.

(* ================================================================== *)
(** ** The dashboard component: [website/app/dashboard/DashboardContent.tsx] *)
(* ================================================================== *)

Module Dashboard.

(** [s.split(sep)[0]] for a one-character separator: the part of [s]
    before the first [sep], all of [s] when there is none. *)
Fixpoint before (sep : ascii) (s : string) : string :=
  match s with
  | EmptyString => EmptyString
  | String c rest => if Ascii.eqb c sep then EmptyString else String c (before sep rest)
  end.

Section Component.
Context {number : Type} `{RT : JsRuntime number}.

(** [user.user_metadata?.full_name], for a [user] that is not [null]. *)
Definition full_name (user : json number) : value number :=
  match get user "user_metadata" with
  | None => None
  | Some JNull => None
  | Some metadata => get metadata "full_name"
  end.

(** [user.email?.split('@')[0]], for a [user] that is not [null]. *)
Definition email_name (user : json number) : M number (value number) :=
  match get user "email" with
  | None => ret None
  | Some JNull => ret None
  | Some (JStr s) => ret (Some (JStr (before "@" s)))
  | Some _ => throw (TypeError "user.email?.split is not a function")
  end.

(** [user.user_metadata?.full_name || user.email?.split('@')[0]]. *)
Definition welcome_name (user : json number) : M number (value number) :=
  match user with
  | JNull => throw (TypeError "Cannot read properties of null (reading 'user_metadata')")
  | _ => if truthy (full_name user) then ret (full_name user) else email_name user
  end.

(** The text of the heading [Welcome back, {...}!]. *)
Definition welcome (user : json number) : M number string :=
  name <- welcome_name user ;;
  text <- Form.child name ;;
  ret ("Welcome back, " ++ text ++ "!").

(** [user.user_metadata?.full_name || 'User'], the name in the sidebar. *)
Definition sidebar_name (user : json number) : M number (json number) :=
  match user with
  | JNull => throw (TypeError "Cannot read properties of null (reading 'user_metadata')")
  | _ => ret (match full_name user with
              | Some v => if truthy (full_name user) then v else JStr "User"
              | None => JStr "User"
              end)
  end.

End Component.
End Dashboard.

(* ================================================================== *)
(** ** The admin dashboard: [unnamed/part_001] *)
(* ================================================================== *)

Module Admin.

(** A row of the [form_submissions] table. *)
Record Submission (number : Type) : Type := Row {
  id : string;
  type : string;
  email : string;
  data : json number;
  created_at : string
}.
Arguments Row {number} id type email data created_at.
Arguments id {number} s.
Arguments type {number} s.
Arguments email {number} s.
Arguments data {number} s.
Arguments created_at {number} s.

(** The four counters over the table. *)
Record Stats : Type := MkStats {
  total : nat;
  signups : nat;
  consultations : nat;
  contacts : nat
}.

Section Component.
Context {number : Type}.
(** [String.prototype.toLowerCase] and [JSON.stringify], from the engine. *)
Variable toLowerCase : string -> string.
Variable JSON_stringify : json number -> string.

(** The callback of [submissions.filter] in [filteredSubmissions]; the
    [filter] cell holds [all] or a submission type. *)
Definition matches (filter searchTerm : string) (s : Submission number) : bool :=
  let matchesFilter := String.eqb filter "all" || String.eqb (type s) filter in
  let matchesSearch :=
    includes (toLowerCase searchTerm) (toLowerCase (email s))
    || includes (toLowerCase searchTerm) (toLowerCase (JSON_stringify (data s))) in
  matchesFilter && matchesSearch.

Definition filteredSubmissions (filter searchTerm : string)
    (submissions : list (Submission number)) : list (Submission number) :=
  List.filter (matches filter searchTerm) submissions.

Definition count_type (t : string) (submissions : list (Submission number)) : nat :=
  List.length (List.filter (fun s => String.eqb (type s) t) submissions).

Definition stats (submissions : list (Submission number)) : Stats :=
  MkStats (List.length submissions)
          (count_type "signup" submissions)
          (count_type "consultation" submissions)
          (count_type "contact" submissions).

(** [deleteSubmission]: the [submissions] cell after the handler, for the
    outcome of the delete on the table ([Some message] is its error). *)
Definition deleteSubmission (deleted : error + option string) (target : string)
    (submissions : list (Submission number)) : list (Submission number) :=
  match deleted with
  | inr None => List.filter (fun s => negb (String.eqb (id s) target)) submissions
  | inr (Some _) => submissions
  | inl _ => submissions
  end.

End Component.
End Admin.

(* ================================================================== *)
(** ** A concrete runtime for the scenarios *)
(* ================================================================== *)

Module Scenario.

Definition upper_ascii (c : ascii) : ascii :=
  let n := nat_of_ascii c in
  if (97 <=? n)%nat && (n <=? 122)%nat then ascii_of_nat (n - 32) else c.

Fixpoint upper (s : string) : string :=
  match s with
  | EmptyString => EmptyString
  | String c rest => String (upper_ascii c) (upper rest)
  end.

(** Integer-valued numbers and ASCII text. *)
#[export] Instance integers : JsRuntime Z := {|
  number_truthy n := negb (n =? 0)%Z;
  number_to_string n := NilEmpty.string_of_int (Z.to_int n);
  toUpperCase := upper
|}.

(** The external reasoning service when nothing listens on its port:
    [fetch] rejects. *)
Definition unreachable : service Z :=
  fun _ => inl (Rejection "TypeError: fetch failed").

(** The external reasoning service answering with an error status. *)
Definition erroring : service Z :=
  fun _ => inr (Fetched 503 "Service Unavailable" (inr JNull)).

(** A reasoning service that answers with the given analysis. *)
Definition answering (data : json Z) : service Z :=
  fun _ => inr (Fetched 200 "OK" (inr data)).

(** An analysis as the reasoning service returns it. *)
Definition live_analysis : json Z :=
  JObj [("recommendations", JStr "Deploy a support chatbot.")].

(** The request of the end-to-end scenario. *)
Definition support_cost : json Z :=
  JObj [("problem", JStr "reduce support cost"); ("industry", JStr "SaaS");
        ("companySize", JStr "SMB"); ("email", JStr "a@b.com")].

(** The same [industry] and [companySize] with another [problem] and [email]. *)
Definition churn : json Z :=
  JObj [("problem", JStr "predict customer churn"); ("industry", JStr "SaaS");
        ("companySize", JStr "SMB"); ("email", JStr "c@d.org")].

(** A request with an empty [problem]. *)
Definition empty_problem : json Z :=
  JObj [("problem", JStr ""); ("industry", JStr "SaaS");
        ("companySize", JStr "SMB"); ("email", JStr "a@b.com")].

(** A notify submission whose [type] is a string outside the three
    known types. *)
Definition partner_submission : json Z :=
  JObj [("formData", JObj [("email", JStr "a@b.com")]); ("type", JStr "partner")].

(** A notify submission whose [type] is truthy but not a string. *)
Definition untyped_submission : json Z :=
  JObj [("formData", JObj [("email", JStr "a@b.com")]); ("type", JBool true)].

(** The form filled in with the end-to-end scenario. *)
Definition support_form : Form.form_data :=
  Form.FormData "reduce support cost" "SaaS" "SMB" "a@b.com".

(** A [businessImpact] whose string slots are absent and whose list slots
    are empty. *)
Definition lists_only : json Z :=
  JObj [("recommendations", JStr "r");
        ("businessImpact",
         JObj [("key_metrics", JArr []); ("success_factors", JArr []);
               ("potential_challenges", JArr [])])].

End Scenario.

(* ================================================================== *)
(** ** Observations on a handler run *)
(* ================================================================== *)

Section Observations.
Context {number : Type} `{RT : JsRuntime number}.

(** The value a computation returned, if it did not throw. *)
Definition returned {A} (m : M number A) : option A :=
  match outcome m with
  | inr a => Some a
  | inl _ => None
  end.

(** The delegate call failed: [fetch] rejected, the status was not OK, or
    the body of the answer could not be read as JSON. *)
Definition delegate_fails (backend : service number) (body : json number) : bool :=
  match backend body with
  | inl _ => true
  | inr r =>
      negb (ok r) || match fetched_json r with inl _ => true | inr _ => false end
  end.

(** The delegate call of the gateway for a request body. *)
Definition delegate_body (body : json number) : json number :=
  Consult.payload (get body "problem") (get body "industry")
                  (get body "companySize") (get body "email").

(** [r.businessImpact[slot]] of a response body. *)
Definition impact_slot (r : response number) (slot : string) : value number :=
  Form.slot_of (get (body r) "businessImpact") slot.

(** Whether [r.recommendations] is a string that contains [word]. *)
Definition recommendations_mention (r : response number) (word : string) : bool :=
  match get (body r) "recommendations" with
  | Some (JStr s) => includes word s
  | _ => false
  end.

(** Whether a slot of [r.businessImpact] is a string that contains [word]. *)
Definition slot_mentions (r : response number) (slot word : string) : bool :=
  match impact_slot r slot with
  | Some (JStr s) => includes word s
  | _ => false
  end.

Definition is_string (v : json number) : bool :=
  match v with JStr _ => true | _ => false end.

(** A value that is a non-empty array of strings. *)
Definition nonempty_string_list (v : value number) : bool :=
  match v with
  | Some (JArr (x :: rest)) => forallb is_string (x :: rest)
  | _ => false
  end.

(** The eleven slots of [businessImpact] in display order. *)
Definition impact_slots : list string :=
  ["cost_savings"; "revenue_potential"; "time_savings"; "roi_estimate";
   "risk_reduction"; "competitive_advantage"; "implementation_timeline";
   "resource_requirements"; "key_metrics"; "success_factors";
   "potential_challenges"].

(** The slots of [impact_slots] that a response carries. *)
Definition present_slots (r : response number) : list string :=
  filter (fun slot => match impact_slot r slot with Some _ => true | None => false end)
         impact_slots.

(** The consultation gateway as the form's browser reaches it, for a
    given state of the external reasoning service. *)
Definition gateway (backend : service number) : service number :=
  fun sent =>
    match outcome (Consult.POST (inr sent) backend) with
    | inr r => inr (Fetched (status r) "" (inr (body r)))
    | inl e => inl e
    end.

(** The response of the gateway when the delegate call fails: a function
    of [industry] and [companySize] alone. *)
Definition fallback_response (industry companySize : value number) : response number :=
  match ToString industry, ToString companySize with
  | Some si, Some sc => NextResponse_json (Consult.mockResponse si sc) 200
  | _, _ =>
      NextResponse_json (JObj [("error", JStr "Failed to process consultation request")]) 500
  end.

Definition missing_fields : response number :=
  NextResponse_json (JObj [("error", JStr "Missing required fields")]) 400.

Definition submission_received : response number :=
  NextResponse_json
    (JObj [("success", JBool true); ("message", JStr "Submission received")]) 200.

Definition submission_failed : response number :=
  NextResponse_json (JObj [("error", JStr "Failed to process submission")]) 500.

(** The answer of the route to a readable body, branch by branch. *)
Definition notify_answer (formData type : value number) : response number :=
  if negb (truthy formData) || negb (truthy type) then missing_fields
  else match type with
       | Some (JStr _) =>
           match ToString (Notify.formData_email formData) with
           | Some _ => submission_received
           | None => submission_failed
           end
       | _ => submission_failed
       end.

Definition generic_error : string :=
  "Failed to process consultation. Please try again.".

(** The answer counts as a failure for the form: [fetch] rejected or the
    status is not in 200-299. *)
Definition transport_failed (answer : error + fetched number) : bool :=
  match answer with
  | inl _ => true
  | inr r => negb (is_2xx (fetched_status r))
  end.

End Observations.

(* ================================================================== *)
(** ** The routes as the pages reach them *)
(* ================================================================== *)

Section Wiring.
Context {number : Type} `{RT : JsRuntime number}.

(** What the browser receives from a route handler run. *)
Definition served (m : M number (response number)) : error + fetched number :=
  match outcome m with
  | inr r => inr (Fetched (status r) "" (inr (body r)))
  | inl e => inl e
  end.

(** The two auth routes behind their paths, for a given identity
    service; any other path is answered 404 without a JSON body. *)
Definition auth_api (signInWithPassword : sign_in number) (signUp : sign_up number)
  : string -> service number :=
  fun url sent =>
    if String.eqb url "/api/auth/login"
    then served (Login.POST (inr sent) signInWithPassword)
    else if String.eqb url "/api/auth/signup"
    then served (Signup.POST (inr sent) signUp)
    else inr (Fetched 404 "Not Found" (inl (Rejection "SyntaxError: Unexpected token <"))).

(** No body: the request could not be read, or its JSON is [null]. *)
Definition unreadable (req : request number) : Prop :=
  (exists e, req = inl e) \/ req = inr JNull.

(** The effects of the auth page that store a token or schedule a timer. *)
Definition is_post (e : Auth.effect number) : bool :=
  match e with
  | Auth.Post _ _ => true
  | _ => false
  end.

(** The occurrences of a character in a string. *)
Fixpoint occurs (c : ascii) (s : string) : bool :=
  match s with
  | EmptyString => false
  | String x rest => Ascii.eqb x c || occurs c rest
  end.

(** The text of an optional string slot: nothing when it is absent. *)
Definition text_of (slot : option string) : string :=
  match slot with
  | Some s => s
  | None => ""
  end.

(** A complete analysis as the renderer expects it. *)
Definition analysis (recommendations cost revenue time roi risk advantage timeline
                     resources : string)
                    (metrics factors challenges : list string) : json number :=
  JObj [("recommendations", JStr recommendations);
        ("businessImpact",
         JObj [("cost_savings", JStr cost);
               ("revenue_potential", JStr revenue);
               ("time_savings", JStr time);
               ("roi_estimate", JStr roi);
               ("risk_reduction", JStr risk);
               ("competitive_advantage", JStr advantage);
               ("implementation_timeline", JStr timeline);
               ("resource_requirements", JStr resources);
               ("key_metrics", JArr (map JStr metrics));
               ("success_factors", JArr (map JStr factors));
               ("potential_challenges", JArr (map JStr challenges))])].

End Wiring.

(* ================================================================== *)
(** ** More concrete cases *)
(* ================================================================== *)

Module Cases.
Import Scenario.

(** A request that names neither industry nor company size. *)
Definition anonymous_request : json Z :=
  JObj [("problem", JStr "reduce support cost")].

(** A request whose industry is an object with a [toString] property. *)
Definition odd_industry : json Z :=
  JObj [("problem", JStr "reduce support cost");
        ("industry", JObj [("toString", JStr "SaaS")])].

Definition credentials : json Z :=
  JObj [("email", JStr "a@b.com"); ("password", JStr "secret1")].

Definition no_password : json Z :=
  JObj [("email", JStr "a@b.com")].

Definition registration : json Z :=
  JObj [("email", JStr "a@b.com"); ("password", JStr "secret1");
        ("fullName", JStr "Ada")].

Definition no_name : json Z :=
  JObj [("email", JStr "a@b.com"); ("password", JStr "secret1")].

Definition ada_user : json Z := JObj [("id", JStr "u1"); ("email", JStr "a@b.com")].
Definition ada_session : json Z := JObj [("access_token", JStr "tok-1")].

(** An identity service that vouches for every sign-in. *)
Definition accepting : sign_in Z :=
  fun _ _ => inr (AuthResult ada_user ada_session None).

(** An identity service that refuses every sign-in. *)
Definition refusing : sign_in Z :=
  fun _ _ => inr (AuthResult JNull JNull (Some "Invalid login credentials")).

(** An identity service that cannot be reached. *)
Definition unreachable_identity : sign_in Z :=
  fun _ _ => inl (Rejection "TypeError: fetch failed").

(** An identity service that registers every signup, without a user yet. *)
Definition registering : sign_up Z :=
  fun _ _ _ => inr (AuthResult JNull JNull None).

(** An identity service that knows every email already. *)
Definition taken : sign_up Z :=
  fun _ _ _ => inr (AuthResult JNull JNull (Some "User already registered")).

(** A server that answers 200 with a body that is not JSON. *)
Definition garbled : service Z :=
  fun _ => inr (Fetched 200 "OK" (inl (Rejection "SyntaxError: Unexpected token <"))).

(** A server that answers every path with 200 and the JSON body [null]. *)
Definition null_server : string -> service Z :=
  fun _ _ => inr (Fetched 200 "OK" (inr JNull)).

Definition full_analysis : json Z :=
  analysis "Deploy a chatbot." "20%" "5%" "10h" "150%" "less fraud" "faster" "4 months"
           "2 engineers" ["CSAT"; "FRT"] ["sponsor"] ["data quality"; "adoption"].

Definition bare_result : json Z :=
  JObj [("recommendations", JStr "Deploy a chatbot.")].

Definition structured_result : json Z :=
  JObj [("recommendations", JObj [("summary", JStr "Deploy a chatbot.")])].

Definition login_page : Auth.state Z :=
  Auth.State Auth.login false (JStr "") "" (Auth.FormData "a@b.com" "secret1" "").

Definition signup_page : Auth.state Z :=
  Auth.State Auth.signup false (JStr "") "" (Auth.FormData "a@b.com" "secret1" "Ada").

Definition ada : json Z := JObj [("email", JStr "ada@example.com")].

Definition ada_named : json Z :=
  JObj [("email", JStr "ada@example.com");
        ("user_metadata", JObj [("full_name", JStr "Ada L")])].

Definition lower_ascii (c : ascii) : ascii :=
  let n := nat_of_ascii c in
  if (65 <=? n)%nat && (n <=? 90)%nat then ascii_of_nat (n + 32) else c.

Fixpoint lower (s : string) : string :=
  match s with
  | EmptyString => EmptyString
  | String c rest => String (lower_ascii c) (lower rest)
  end.

(** Three rows without data. *)
Definition rows : list (Admin.Submission Z) :=
  [Admin.Row "1" "signup" "a@b.com" (JObj []) "2026-01-20";
   Admin.Row "2" "contact" "c@d.org" (JObj []) "2026-01-21";
   Admin.Row "3" "signup" "e@f.net" (JObj []) "2026-01-22"].

End Cases.

(* ================================================================== *)
(** ** Laws of the effect monad *)
(* ================================================================== *)

Section MonadLaws.
Context {number : Type}.

Lemma outcome_bind {A B} (m : M number A) (k : A -> M number B) :
  outcome (bind m k)
  = match outcome m with inl e => inl e | inr a => outcome (k a) end.
Proof.
  destruct m as [tr [e | a]]; cbn; [reflexivity |].
  destruct (k a); reflexivity.
Qed.

Lemma trace_bind {A B} (m : M number A) (k : A -> M number B) :
  trace (bind m k)
  = (trace m ++ match outcome m with inl _ => [] | inr a => trace (k a) end)%list.
Proof.
  destruct m as [tr [e | a]]; cbn; [now rewrite app_nil_r |].
  destruct (k a); reflexivity.
Qed.

Lemma outcome_try_catch {A} (m : M number A) (h : error -> M number A) :
  outcome (try_catch m h)
  = match outcome m with inl e => outcome (h e) | inr a => inr a end.
Proof.
  destruct m as [tr [e | a]]; cbn; [| reflexivity].
  destruct (h e); reflexivity.
Qed.

Lemma trace_try_catch {A} (m : M number A) (h : error -> M number A) :
  trace (try_catch m h)
  = (trace m ++ match outcome m with inl e => trace (h e) | inr _ => [] end)%list.
Proof.
  destruct m as [tr [e | a]]; cbn; [| now rewrite app_nil_r].
  destruct (h e); reflexivity.
Qed.

Lemma bind_ret {A B} (a : A) (k : A -> M number B) : bind (ret a) k = k a.
Proof. unfold bind, ret. destruct (k a); reflexivity. Qed.

Lemma bind_await_value {A B} (a : A) (k : A -> M number B) :
  bind (await (inr a)) k = k a.
Proof. exact (bind_ret a k). Qed.

Lemma bind_await_rejected {A B} (e : error) (k : A -> M number B) :
  bind (await (inl e)) k = throw e.
Proof. reflexivity. Qed.

Lemma external_calls_app (t1 t2 : list (event number)) :
  external_calls (t1 ++ t2) = (external_calls t1 + external_calls t2)%nat.
Proof.
  unfold external_calls. now rewrite filter_app, length_app.
Qed.

End MonadLaws.

Create Rewrite HintDb js.
#[local] Hint Rewrite @outcome_bind @trace_bind @outcome_try_catch @trace_try_catch : js.

(* ================================================================== *)
(** ** The consultation gateway *)
(* ================================================================== *)

Section GatewayFacts.
Context {number : Type} `{RT : JsRuntime number}.

Lemma consult_destructure (body : json number) :
  body <> JNull ->
  Consult.destructure body
  = ret (get body "problem", get body "industry", get body "companySize", get body "email").
Proof. destruct body; intros H; try reflexivity. now contradiction H. Qed.

Lemma optional_string_ToString (v : value number) :
  optional_string v = true -> exists s, ToString v = Some s.
Proof.
  destruct v as [[]|]; cbn; intros H; try discriminate; eauto.
Qed.

Lemma trace_delegate (backend : service number) (p i c e : value number) :
  trace (Consult.delegate backend p i c e)
  = [Fetch Consult.backend_url (Consult.payload p i c e)].
Proof.
  unfold Consult.delegate, call, await.
  destruct (backend _) as [err | r]; [reflexivity |].
  cbn. destruct (ok r); cbn; [| reflexivity].
  destruct (fetched_json r); reflexivity.
Qed.

Lemma outcome_delegate (backend : service number) (p i c e : value number) :
  outcome (Consult.delegate backend p i c e)
  = match backend (Consult.payload p i c e) with
    | inl err => inl err
    | inr r =>
        if ok r
        then match fetched_json r with
             | inl err => inl err
             | inr data => inr (Some (NextResponse_json data 200))
             end
        else inl (Error ("Backend error: " ++ statusText r))
    end.
Proof.
  unfold Consult.delegate, call, await.
  destruct (backend _) as [err | r]; [reflexivity |].
  cbn. destruct (ok r); cbn; [| reflexivity].
  destruct (fetched_json r); reflexivity.
Qed.

(** A failed delegate call leaves the inner [try] without a response. *)
Lemma delegate_fails_outcome (backend : service number) (p i c e : value number) :
  delegate_fails backend (Consult.payload p i c e) = true ->
  exists err, outcome (Consult.delegate backend p i c e) = inl err.
Proof.
  rewrite outcome_delegate. unfold delegate_fails.
  destruct (backend _) as [err | r]; [eauto |].
  destruct (ok r); cbn; [| eauto].
  destruct (fetched_json r); [eauto | discriminate].
Qed.

Lemma outcome_fallback (p i c e : value number) (si sc : string) :
  ToString i = Some si -> ToString c = Some sc ->
  outcome (Consult.fallback p i c e)
  = inr (NextResponse_json (Consult.mockResponse si sc) 200).
Proof.
  intros Hi Hc. unfold Consult.fallback, interpolate.
  rewrite Hi, Hc. reflexivity.
Qed.

Lemma outcome_fallback_throws (p i c e : value number) :
  ToString i = None \/ ToString c = None ->
  outcome (Consult.fallback p i c e)
  = inl (TypeError "Cannot convert object to primitive value").
Proof.
  unfold Consult.fallback, interpolate.
  destruct (ToString i); [| reflexivity].
  destruct (ToString c); [| reflexivity].
  intros [H | H]; discriminate.
Qed.

Lemma POST_on_delegate_failure (body : json number) (backend : service number) :
  body <> JNull ->
  delegate_fails backend (delegate_body body) = true ->
  outcome (Consult.POST (inr body) backend)
  = inr (fallback_response (get body "industry") (get body "companySize")).
Proof.
  intros Hbody Hfail. unfold Consult.POST.
  rewrite bind_await_value, consult_destructure, bind_ret by assumption.
  destruct (delegate_fails_outcome _ _ _ _ _ Hfail) as [err Herr].
  autorewrite with js. cbn [await ret outcome snd].
  autorewrite with js. rewrite Herr. cbn [outcome snd].
  autorewrite with js. cbn [ret console_log console_error emit outcome snd].
  unfold fallback_response.
  destruct (ToString (get body "industry")) as [si |] eqn:Hi.
  - destruct (ToString (get body "companySize")) as [sc |] eqn:Hc.
    + now rewrite (outcome_fallback _ _ _ _ _ _ Hi Hc).
    + rewrite outcome_fallback_throws by now right.
      reflexivity.
  - rewrite outcome_fallback_throws by now left.
    reflexivity.
Qed.

Lemma POST_on_delegate_success (body : json number) (backend : service number)
    (r : fetched number) (data : json number) :
  body <> JNull ->
  backend (delegate_body body) = inr r ->
  ok r = true ->
  fetched_json r = inr data ->
  outcome (Consult.POST (inr body) backend) = inr (NextResponse_json data 200).
Proof.
  intros Hbody Hb Hok Hjson. unfold Consult.POST.
  rewrite bind_await_value, consult_destructure, bind_ret by assumption.
  autorewrite with js. cbn [await ret outcome snd].
  autorewrite with js. rewrite outcome_delegate.
  unfold delegate_body in Hb. rewrite Hb, Hok, Hjson. reflexivity.
Qed.

(** The events of a run on a readable body start with the delegate call,
    and no other event of the run leaves the process. *)
Lemma POST_trace (body : json number) (backend : service number) :
  body <> JNull ->
  exists rest,
    trace (Consult.POST (inr body) backend)
    = Fetch Consult.backend_url (delegate_body body) :: rest
    /\ external_calls rest = 0%nat.
Proof.
  intros Hbody. unfold Consult.POST.
  rewrite bind_await_value, consult_destructure, bind_ret by assumption.
  autorewrite with js. cbn [await ret outcome trace fst snd app].
  autorewrite with js. rewrite trace_delegate. cbn [app].
  eexists; split; [reflexivity |].
  rewrite outcome_delegate. fold (delegate_body body).
  destruct (backend (delegate_body body)) as [err | r]; cbn.
  - unfold Consult.fallback, interpolate.
    destruct (ToString (get body "industry")); [| reflexivity].
    destruct (ToString (get body "companySize")); reflexivity.
  - destruct (ok r); cbn.
    + destruct (fetched_json r); cbn; [| reflexivity].
      unfold Consult.fallback, interpolate.
      destruct (ToString (get body "industry")); [| reflexivity].
      destruct (ToString (get body "companySize")); reflexivity.
    + unfold Consult.fallback, interpolate.
      destruct (ToString (get body "industry")); [| reflexivity].
      destruct (ToString (get body "companySize")); reflexivity.
Qed.

(** A body that cannot be read never reaches the delegate call. *)
Lemma POST_unreadable (req : request number) (backend : service number) :
  (exists e, req = inl e) \/ req = inr JNull ->
  trace (Consult.POST req backend)
    = [ConsoleError [LStr "Error processing consultation:";
                     LErr match req with
                          | inl e => e
                          | inr _ => TypeError "Cannot destructure property 'problem' of 'body' as it is null."
                          end]]
  /\ outcome (Consult.POST req backend)
     = inr (NextResponse_json
              (JObj [("error", JStr "Failed to process consultation request")]) 500).
Proof.
  intros [[e ->] | ->]; split; reflexivity.
Qed.

End GatewayFacts.

Section GatewayClaims.
Context {number : Type} `{RT : JsRuntime number}.

Lemma fallback_response_typed (industry companySize : value number) :
  optional_string industry = true ->
  optional_string companySize = true ->
  exists si sc,
    ToString industry = Some si /\ ToString companySize = Some sc
    /\ fallback_response industry companySize
       = NextResponse_json (Consult.mockResponse si sc) 200.
Proof.
  intros Hi Hc.
  destruct (optional_string_ToString _ Hi) as [si Hsi].
  destruct (optional_string_ToString _ Hc) as [sc Hsc].
  exists si, sc. unfold fallback_response. now rewrite Hsi, Hsc.
Qed.

(** Whatever the external service does, a request with a readable body
    and typed [industry] / [companySize] is answered with status 200. *)
Lemma POST_status_200 (body : json number) (backend : service number) :
  body <> JNull ->
  optional_string (get body "industry") = true ->
  optional_string (get body "companySize") = true ->
  exists r, outcome (Consult.POST (inr body) backend) = inr r /\ status r = 200%Z.
Proof.
  intros Hbody Hi Hc.
  destruct (delegate_fails backend (delegate_body body)) eqn:Hfail.
  - rewrite (POST_on_delegate_failure _ _ Hbody Hfail).
    destruct (fallback_response_typed _ _ Hi Hc) as (si & sc & _ & _ & ->).
    eexists; split; reflexivity.
  - unfold delegate_fails in Hfail.
    destruct (backend (delegate_body body)) as [err | r] eqn:Hb; [discriminate |].
    apply orb_false_elim in Hfail as [Hok Hjson].
    apply negb_false_iff in Hok.
    destruct (fetched_json r) as [err | data] eqn:Hdata; [discriminate |].
    rewrite (POST_on_delegate_success _ _ _ _ Hbody Hb Hok Hdata).
    eexists; split; reflexivity.
Qed.

Lemma POST_one_external_call (body : json number) (backend : service number) :
  body <> JNull ->
  external_calls (trace (Consult.POST (inr body) backend)) = 1%nat.
Proof.
  intros Hbody.
  destruct (POST_trace body backend Hbody) as (rest & -> & Hrest).
  change (Fetch Consult.backend_url (delegate_body body) :: rest)
    with ([Fetch Consult.backend_url (delegate_body body)] ++ rest)%list.
  rewrite external_calls_app, Hrest. reflexivity.
Qed.

(** C1 (as the code behaves). When the delegate call fails, the gateway
    answers a request with status 200 and a [businessImpact] carrying five
    of the eleven slots: [time_savings], [risk_reduction],
    [competitive_advantage], [resource_requirements], [success_factors]
    and [potential_challenges] are absent from the fallback object. *)
Theorem fallback_carries_five_of_eleven_slots
    (body : json number) (backend : service number) :
  body <> JNull ->
  truthy (get body "problem") = true ->
  optional_string (get body "industry") = true ->
  optional_string (get body "companySize") = true ->
  delegate_fails backend (delegate_body body) = true ->
  exists r,
    outcome (Consult.POST (inr body) backend) = inr r
    /\ status r = 200%Z
    /\ present_slots r
       = ["cost_savings"; "revenue_potential"; "roi_estimate";
          "implementation_timeline"; "key_metrics"]
    /\ impact_slot r "time_savings" = None
    /\ impact_slot r "risk_reduction" = None
    /\ impact_slot r "competitive_advantage" = None
    /\ impact_slot r "resource_requirements" = None
    /\ impact_slot r "success_factors" = None
    /\ impact_slot r "potential_challenges" = None.
Proof.
  intros Hbody _ Hi Hc Hfail.
  rewrite (POST_on_delegate_failure _ _ Hbody Hfail).
  destruct (fallback_response_typed _ _ Hi Hc) as (si & sc & _ & _ & ->).
  eexists; split; [reflexivity |].
  repeat split; reflexivity.
Qed.

(** C5. When the delegate call fails, the response of the gateway is the
    fallback template applied to [industry] and [companySize]; two such
    requests with the same [industry] and [companySize] get the same
    response. *)
Theorem fallback_is_the_template
    (body1 body2 : json number) (backend1 backend2 : service number)
    (si sc : string) :
  body1 <> JNull -> body2 <> JNull ->
  delegate_fails backend1 (delegate_body body1) = true ->
  delegate_fails backend2 (delegate_body body2) = true ->
  ToString (get body1 "industry") = Some si ->
  ToString (get body1 "companySize") = Some sc ->
  get body2 "industry" = get body1 "industry" ->
  get body2 "companySize" = get body1 "companySize" ->
  outcome (Consult.POST (inr body1) backend1)
    = inr (NextResponse_json (Consult.mockResponse si sc) 200)
  /\ outcome (Consult.POST (inr body2) backend2)
     = outcome (Consult.POST (inr body1) backend1).
Proof.
  intros H1 H2 Hf1 Hf2 Hi Hc Ei Ec.
  rewrite (POST_on_delegate_failure _ _ H1 Hf1), (POST_on_delegate_failure _ _ H2 Hf2).
  rewrite Ei, Ec. unfold fallback_response. rewrite Hi, Hc.
  split; reflexivity.
Qed.

(** C6. For a request with a readable body, the first event of the
    handler is the delegate call and no other call leaves the process;
    the answer has status 200 whether the delegate call succeeds or
    fails; on failure it is the fallback response, and on success it is
    the data of the external service. *)
Theorem delegate_first_and_failure_masked
    (body : json number) (backend : service number) :
  body <> JNull ->
  optional_string (get body "industry") = true ->
  optional_string (get body "companySize") = true ->
  (exists rest,
      trace (Consult.POST (inr body) backend)
      = Fetch Consult.backend_url (delegate_body body) :: rest
      /\ external_calls rest = 0%nat)
  /\ (exists r,
        outcome (Consult.POST (inr body) backend) = inr r /\ status r = 200%Z)
  /\ (delegate_fails backend (delegate_body body) = true ->
      exists si sc,
        ToString (get body "industry") = Some si
        /\ ToString (get body "companySize") = Some sc
        /\ outcome (Consult.POST (inr body) backend)
           = inr (NextResponse_json (Consult.mockResponse si sc) 200))
  /\ (forall r data,
        backend (delegate_body body) = inr r ->
        ok r = true ->
        fetched_json r = inr data ->
        outcome (Consult.POST (inr body) backend) = inr (NextResponse_json data 200)).
Proof.
  intros Hbody Hi Hc. split; [| split; [| split]].
  - now apply POST_trace.
  - now apply POST_status_200.
  - intros Hfail.
    destruct (fallback_response_typed _ _ Hi Hc) as (si & sc & Hsi & Hsc & Heq).
    exists si, sc. repeat split; try assumption.
    now rewrite (POST_on_delegate_failure _ _ Hbody Hfail), Heq.
  - intros r data Hb Hok Hdata.
    exact (POST_on_delegate_success _ _ _ _ Hbody Hb Hok Hdata).
Qed.

(** C9. Two requests on the fallback path that agree on [industry] and
    [companySize] get the same response, whatever their [problem] and
    [email] are. *)
Theorem fallback_ignores_problem_and_email
    (body1 body2 : json number) (backend1 backend2 : service number) :
  body1 <> JNull -> body2 <> JNull ->
  delegate_fails backend1 (delegate_body body1) = true ->
  delegate_fails backend2 (delegate_body body2) = true ->
  get body1 "industry" = get body2 "industry" ->
  get body1 "companySize" = get body2 "companySize" ->
  outcome (Consult.POST (inr body1) backend1)
  = outcome (Consult.POST (inr body2) backend2).
Proof.
  intros H1 H2 Hf1 Hf2 Ei Ec.
  rewrite (POST_on_delegate_failure _ _ H1 Hf1), (POST_on_delegate_failure _ _ H2 Hf2).
  now rewrite Ei, Ec.
Qed.

(** C2 (amended). The gateway does not validate [problem]: for a request
    with a readable body whose [problem] is missing or empty, it makes
    exactly one call to the external reasoning service and answers with
    status 200, which is not a client error. *)
Theorem POST_does_not_validate_problem
    (body : json number) (backend : service number) :
  body <> JNull ->
  get body "problem" = None \/ get body "problem" = Some (JStr "") ->
  optional_string (get body "industry") = true ->
  optional_string (get body "companySize") = true ->
  external_calls (trace (Consult.POST (inr body) backend)) = 1%nat
  /\ exists r,
       outcome (Consult.POST (inr body) backend) = inr r
       /\ status r = 200%Z /\ is_4xx (status r) = false.
Proof.
  intros Hbody _ Hi Hc. split.
  - now apply POST_one_external_call.
  - destruct (POST_status_200 body backend Hbody Hi Hc) as (r & Hr & Hs).
    exists r. repeat split; try assumption. now rewrite Hs.
Qed.

End GatewayClaims.

(* ================================================================== *)
(** ** External calls per request *)
(* ================================================================== *)

(** Runs a handler body symbolically, one case per branch of the code:
    the innermost scrutinee that blocks evaluation is split first. *)
Ltac branches :=
  repeat (cbn -[String.append String.eqb];
          match goal with
          | |- context [match ?x with _ => _ end] =>
              lazymatch x with
              | context [match _ with _ => _ end] => fail
              | _ => destruct x eqn:?
              end
          end).

Section ExternalCalls.
Context {number : Type} `{RT : JsRuntime number}.

Lemma consult_calls (req : request number) (backend : service number) :
  (external_calls (trace (Consult.POST req backend)) <= 1)%nat.
Proof.
  destruct req as [e | body].
  - cbn. lia.
  - destruct body; try (rewrite POST_one_external_call by discriminate; lia).
    cbn. lia.
Qed.

Lemma notify_calls (req : request number) :
  external_calls (trace (Notify.POST req)) = 0%nat.
Proof.
  unfold Notify.POST. destruct req as [e | body]; [reflexivity |].
  rewrite bind_await_value.
  destruct body; cbn [Notify.destructure]; try reflexivity; rewrite bind_ret;
    unfold Notify.type_toUpperCase, interpolate;
    branches; reflexivity.
Qed.

Lemma login_calls (req : request number) (signInWithPassword : sign_in number) :
  (external_calls (trace (Login.POST req signInWithPassword)) <= 1)%nat.
Proof.
  unfold Login.POST. destruct req as [e | body]; [cbn; lia |].
  rewrite bind_await_value.
  destruct body; cbn [Login.destructure]; try (cbn; lia); rewrite bind_ret;
    unfold call; branches; cbn; lia.
Qed.

Lemma signup_calls (req : request number) (signUp : sign_up number) :
  (external_calls (trace (Signup.POST req signUp)) <= 1)%nat.
Proof.
  unfold Signup.POST. destruct req as [e | body]; [cbn; lia |].
  rewrite bind_await_value.
  destruct body; cbn [Signup.destructure]; try (cbn; lia); rewrite bind_ret;
    unfold call; branches; cbn; lia.
Qed.

(** C8. Handling one request, the consultation gateway and the signup,
    login and notify routes each make at most one call that leaves the
    process (the notify route makes none): no external call is attempted
    a second time. *)
Theorem at_most_one_external_call_per_request
    (req : request number) (backend : service number)
    (signUp : sign_up number) (signInWithPassword : sign_in number) :
  (external_calls (trace (Consult.POST req backend)) <= 1)%nat
  /\ (external_calls (trace (Signup.POST req signUp)) <= 1)%nat
  /\ (external_calls (trace (Login.POST req signInWithPassword)) <= 1)%nat
  /\ (external_calls (trace (Notify.POST req)) <= 1)%nat.
Proof.
  repeat split.
  - apply consult_calls.
  - apply signup_calls.
  - apply login_calls.
  - rewrite notify_calls. lia.
Qed.

End ExternalCalls.

(* ================================================================== *)
(** ** The notify route *)
(* ================================================================== *)

Section NotifyFacts.
Context {number : Type} `{RT : JsRuntime number}.

Lemma notify_outcome (body : json number) :
  body <> JNull ->
  outcome (Notify.POST (inr body))
  = inr (notify_answer (get body "formData") (get body "type")).
Proof.
  intros Hbody. unfold Notify.POST, notify_answer.
  rewrite bind_await_value.
  assert (Hd : Notify.destructure body = ret (get body "formData", get body "type")).
  { destruct body; try reflexivity. now contradiction Hbody. }
  rewrite Hd, bind_ret.
  destruct (negb (truthy (get body "formData")) || negb (truthy (get body "type")));
    [reflexivity |].
  unfold Notify.type_toUpperCase, interpolate.
  destruct (get body "type") as [[] |]; try reflexivity.
  rewrite bind_ret.
  destruct (ToString (Notify.formData_email (get body "formData"))); reflexivity.
Qed.

(** C10 (amended). For a readable body, the notify route answers 400
    exactly when [formData] or [type] is missing or falsy. With both
    truthy it answers 200 with [{success: true, message}] when [type] is a
    string (whether or not it is one of signup, consultation, contact) and
    [formData.email] converts to a string; a truthy [type] that is not a
    string is answered with 500. *)
Theorem notify_validates_presence_and_needs_string_type (body : json number) :
  body <> JNull ->
  exists r,
    outcome (Notify.POST (inr body)) = inr r
    /\ (status r = 400%Z
        <-> truthy (get body "formData") = false \/ truthy (get body "type") = false)
    /\ (truthy (get body "formData") = true ->
        truthy (get body "type") = true ->
        (exists s, get body "type" = Some (JStr s)) ->
        (exists e, ToString (Notify.formData_email (get body "formData")) = Some e) ->
        r = submission_received)
    /\ (truthy (get body "formData") = true ->
        truthy (get body "type") = true ->
        (forall s, get body "type" <> Some (JStr s)) ->
        r = submission_failed).
Proof.
  intros Hbody. rewrite (notify_outcome body Hbody).
  eexists; split; [reflexivity |].
  unfold notify_answer.
  destruct (truthy (get body "formData")) eqn:Hf;
    destruct (truthy (get body "type")) eqn:Ht; cbn [negb orb].
  - split; [| split].
    + split.
      * destruct (get body "type") as [[] |]; cbn;
          try discriminate;
          destruct (ToString _); cbn; discriminate.
      * intros [H | H]; discriminate.
    + intros _ _ [s ->] [e ->]. reflexivity.
    + intros _ _ Hns.
      destruct (get body "type") as [[] |]; try reflexivity.
      now contradiction (Hns s).
  - repeat split; try discriminate; auto.
  - repeat split; try discriminate; auto.
  - repeat split; try discriminate; auto.
Qed.

End NotifyFacts.

(* ================================================================== *)
(** ** The consultation form *)
(* ================================================================== *)

Section FormFacts.
Context {number : Type} `{RT : JsRuntime number}.

Lemma render_empty_result (b : bool) (msg : string) :
  Form.render (Form.State b (@JNull number) msg)
  = ret (Form.View b (if String.eqb msg "" then None else Some msg) []).
Proof. reflexivity. Qed.

(** C7. After [handleSubmit], if the answer had a 2xx status and a JSON
    body, the [result] state is that body, whole, and no error is shown;
    if the call failed (rejected, or a status outside 2xx) the generic
    error message is shown, [result] is [null] and the renderer shows no
    result block. *)
Theorem handleSubmit_all_or_nothing
    (formData : Form.form_data) (server : service number) (st : Form.state number) :
  (forall r data,
      server (Form.stringify formData) = inr r ->
      is_2xx (fetched_status r) = true ->
      fetched_json r = inr data ->
      snd (Form.handleSubmit formData server st) = Form.State false data "")
  /\ (transport_failed (server (Form.stringify formData)) = true ->
      snd (Form.handleSubmit formData server st)
        = Form.State false JNull generic_error
      /\ Form.render (snd (Form.handleSubmit formData server st))
         = ret (Form.View false (Some generic_error) [])).
Proof.
  unfold Form.handleSubmit, Form.submit, call, await. split.
  - intros r data Hs Hok Hjson. rewrite Hs. cbn.
    unfold ok. unfold is_2xx in Hok. rewrite Hok. cbn. rewrite Hjson. reflexivity.
  - intros Hfail.
    destruct (server (Form.stringify formData)) as [e | r]; cbn.
    + split; reflexivity.
    + cbn in Hfail. unfold ok. unfold is_2xx in Hfail.
      apply negb_true_iff in Hfail. rewrite Hfail. cbn.
      split; reflexivity.
Qed.

(** [.map] on a slot either finds an array or raises a [TypeError]. *)
Lemma map_items_cases (slot : value number) :
  (exists items, slot = Some (JArr items) /\ Form.map_items slot = ret items)
  \/ (exists what, Form.map_items slot = throw (TypeError what)).
Proof.
  destruct slot as [[] |]; cbn; eauto.
Qed.

Lemma impact_lists_absent (bi : value number) :
  Form.slot_of bi "key_metrics" = None
  \/ Form.slot_of bi "success_factors" = None
  \/ Form.slot_of bi "potential_challenges" = None ->
  exists what, Form.impact_lists bi = throw (TypeError what).
Proof.
  intros H. unfold Form.impact_lists.
  destruct (map_items_cases (Form.slot_of bi "key_metrics"))
    as [(ms & Hm & ->) | (what & ->)]; [| eexists; reflexivity].
  rewrite bind_ret.
  destruct (map_items_cases (Form.slot_of bi "success_factors"))
    as [(fs & Hf & ->) | (what & ->)]; [| eexists; reflexivity].
  rewrite bind_ret.
  destruct (map_items_cases (Form.slot_of bi "potential_challenges"))
    as [(cs & Hc & ->) | (what & ->)]; [| eexists; reflexivity].
  destruct H as [H | [H | H]]; congruence.
Qed.

(** C3 (as the code behaves). A result whose [businessImpact] is present
    but lacks one of the list slots [key_metrics], [success_factors] or
    [potential_challenges] is not rendered: building the element tree
    raises a [TypeError] at the [.map] call on the absent slot. *)
Theorem renderer_throws_on_absent_list_slot (result : json number) :
  truthy (Some result) = true ->
  truthy (get result "businessImpact") = true ->
  Form.slot_of (get result "businessImpact") "key_metrics" = None
  \/ Form.slot_of (get result "businessImpact") "success_factors" = None
  \/ Form.slot_of (get result "businessImpact") "potential_challenges" = None ->
  exists what,
    Form.render_results result = throw (TypeError what)
    /\ Form.render_impact (get result "businessImpact") = throw (TypeError what).
Proof.
  intros Hr Hbi Habsent.
  destruct (impact_lists_absent _ Habsent) as [what Hthrow].
  exists what. unfold Form.render_results, Form.render_impact.
  rewrite Hr, Hbi, Hthrow. split; reflexivity.
Qed.

End FormFacts.

(* ================================================================== *)
(** ** The text of the fallback *)
(* ================================================================== *)

Lemma prefix_app (s t : string) : String.prefix s (s ++ t) = true.
Proof.
  induction s as [| a s IH]; cbn.
  - now destruct t.
  - destruct (ascii_dec a a) as [_ | n]; [exact IH | now contradiction n].
Qed.

Lemma includes_app (needle pre post : string) :
  includes needle (pre ++ needle ++ post) = true.
Proof.
  induction pre as [| a pre IH].
  - change ("" ++ needle ++ post) with (needle ++ post).
    destruct needle as [| b needle].
    + now destruct post.
    + change (includes (String b needle) (String b needle ++ post))
        with (String.prefix (String b needle) (String b needle ++ post)
              || includes (String b needle) (needle ++ post)).
      now rewrite prefix_app.
  - change (includes needle (String a pre ++ needle ++ post))
      with (String.prefix needle (String a (pre ++ needle ++ post))
            || includes needle (pre ++ needle ++ post)).
    rewrite IH. apply orb_true_r.
Qed.

Lemma append_assoc (a b c : string) : (a ++ b) ++ c = a ++ b ++ c.
Proof. induction a as [| x a IH]; cbn; [reflexivity | now rewrite IH]. Qed.

Lemma includes_app_after (needle a b c post : string) :
  includes needle (a ++ b ++ c ++ needle ++ post) = true.
Proof.
  replace (a ++ b ++ c ++ needle ++ post) with ((a ++ b ++ c) ++ needle ++ post)
    by now rewrite !append_assoc.
  apply includes_app.
Qed.

(** The fallback names [industry] in [recommendations], and both
    [companySize] and [industry] in [cost_savings]. *)
Lemma fallback_text_mentions {number : Type} (industry companySize : string) :
  let r := NextResponse_json (@Consult.mockResponse number industry companySize) 200 in
  recommendations_mention r industry = true
  /\ slot_mentions r "cost_savings" industry = true
  /\ slot_mentions r "cost_savings" companySize = true.
Proof.
  repeat split.
  - change (includes industry (Consult.recommendations_text industry) = true).
    apply includes_app.
  - change (includes industry (Consult.cost_savings_text industry companySize) = true).
    apply includes_app_after.
  - change (includes companySize (Consult.cost_savings_text industry companySize) = true).
    apply includes_app.
Qed.

(* ================================================================== *)
(** ** The scenarios *)
(* ================================================================== *)

Import Scenario.

(** C4 (as stated, refuted). In the end-to-end scenario with the external
    service unreachable, it is not the case that [recommendations]
    mentions both SaaS and SMB next to a non-empty [key_metrics]: the
    recommendations text never contains SMB. *)
Lemma scenario_recommendations_lack_company_size :
  ~ (exists r,
        returned (Consult.POST (inr support_cost) unreachable) = Some r
        /\ recommendations_mention r "SaaS" = true
        /\ recommendations_mention r "SMB" = true
        /\ nonempty_string_list (impact_slot r "key_metrics") = true).
Proof.
  intros (r & Hr & _ & Hsmb & _).
  vm_compute in Hr. injection Hr as <-.
  vm_compute in Hsmb. discriminate.
Qed.

(** C4 (amended). In the end-to-end scenario with the external service
    unreachable, the answer has status 200; its [recommendations] mentions
    SaaS and does not mention SMB; [businessImpact.cost_savings] mentions
    both SaaS and SMB; [businessImpact.key_metrics] is a non-empty list of
    strings (seven of them). *)
Theorem scenario_fallback_mentions :
  exists r metrics,
    returned (Consult.POST (inr support_cost) unreachable) = Some r
    /\ status r = 200%Z
    /\ recommendations_mention r "SaaS" = true
    /\ recommendations_mention r "SMB" = false
    /\ slot_mentions r "cost_savings" "SaaS" = true
    /\ slot_mentions r "cost_savings" "SMB" = true
    /\ impact_slot r "key_metrics" = Some (JArr metrics)
    /\ nonempty_string_list (impact_slot r "key_metrics") = true
    /\ List.length metrics = 7%nat.
Proof.
  do 2 eexists. split; [vm_compute; reflexivity |].
  repeat split; vm_compute; reflexivity.
Qed.

(** C2 (as stated, refuted). A request with an empty [problem] is not
    answered with a client error and is not kept from the external
    service: the handler calls it once and answers 200. *)
Lemma empty_problem_is_delegated :
  get empty_problem "problem" = Some (JStr "")
  /\ external_calls (trace (Consult.POST (inr empty_problem) (answering live_analysis))) = 1%nat
  /\ option_map status (returned (Consult.POST (inr empty_problem) (answering live_analysis)))
     = Some 200%Z
  /\ ~ (exists r,
          returned (Consult.POST (inr empty_problem) (answering live_analysis)) = Some r
          /\ is_4xx (status r) = true
          /\ external_calls (trace (Consult.POST (inr empty_problem) (answering live_analysis)))
             = 0%nat).
Proof.
  repeat split; try (vm_compute; reflexivity).
  intros (r & _ & _ & H). vm_compute in H. discriminate.
Qed.

(** C10 (as stated, refuted). A body whose [formData] and [type] are both
    truthy is answered with 500, not 200, when [type] is not a string. *)
Lemma truthy_type_answered_500 :
  truthy (get untyped_submission "formData") = true
  /\ truthy (get untyped_submission "type") = true
  /\ option_map status (returned (Notify.POST (inr untyped_submission))) = Some 500%Z
  /\ option_map status (returned (Notify.POST (inr untyped_submission))) <> Some 200%Z.
Proof.
  repeat split; try (vm_compute; reflexivity).
  vm_compute. discriminate.
Qed.

(** The end-to-end request with the external service unreachable. *)
Lemma fallback_carries_five_of_eleven_slots_witness :
  exists r,
    outcome (Consult.POST (inr support_cost) unreachable) = inr r
    /\ status r = 200%Z
    /\ present_slots r
       = ["cost_savings"; "revenue_potential"; "roi_estimate";
          "implementation_timeline"; "key_metrics"]
    /\ impact_slot r "time_savings" = None
    /\ impact_slot r "risk_reduction" = None
    /\ impact_slot r "competitive_advantage" = None
    /\ impact_slot r "resource_requirements" = None
    /\ impact_slot r "success_factors" = None
    /\ impact_slot r "potential_challenges" = None.
Proof.
  apply (fallback_carries_five_of_eleven_slots support_cost unreachable);
    [discriminate | reflexivity | reflexivity | reflexivity | reflexivity].
Defined.

(** Two requests for SaaS / SMB, one against an unreachable service and one against a service answering 503. *)
Lemma fallback_is_the_template_witness :
  outcome (Consult.POST (inr support_cost) unreachable)
    = inr (NextResponse_json (Consult.mockResponse "SaaS" "SMB") 200)
  /\ outcome (Consult.POST (inr churn) erroring)
     = outcome (Consult.POST (inr support_cost) unreachable).
Proof.
  apply (fallback_is_the_template support_cost churn unreachable erroring);
    solve [discriminate | reflexivity].
Defined.

(** The end-to-end request against a service answering 503. *)
Lemma delegate_first_and_failure_masked_witness :
  (exists rest,
      trace (Consult.POST (inr support_cost) erroring)
      = Fetch Consult.backend_url (delegate_body support_cost) :: rest
      /\ external_calls rest = 0%nat)
  /\ (exists r,
        outcome (Consult.POST (inr support_cost) erroring) = inr r /\ status r = 200%Z)
  /\ (delegate_fails erroring (delegate_body support_cost) = true ->
      exists si sc,
        ToString (get support_cost "industry") = Some si
        /\ ToString (get support_cost "companySize") = Some sc
        /\ outcome (Consult.POST (inr support_cost) erroring)
           = inr (NextResponse_json (Consult.mockResponse si sc) 200))
  /\ (forall r data,
        erroring (delegate_body support_cost) = inr r ->
        ok r = true ->
        fetched_json r = inr data ->
        outcome (Consult.POST (inr support_cost) erroring)
        = inr (NextResponse_json data 200)).
Proof.
  apply (delegate_first_and_failure_masked support_cost erroring);
    solve [discriminate | reflexivity].
Defined.

(** Two requests for SaaS / SMB with different [problem] and [email]. *)
Lemma fallback_ignores_problem_and_email_witness :
  outcome (Consult.POST (inr support_cost) unreachable)
  = outcome (Consult.POST (inr churn) unreachable).
Proof.
  apply (fallback_ignores_problem_and_email support_cost churn unreachable unreachable);
    solve [discriminate | reflexivity].
Defined.

(** A request with an empty [problem] and the external service unreachable. *)
Lemma POST_does_not_validate_problem_witness :
  external_calls (trace (Consult.POST (inr empty_problem) unreachable)) = 1%nat
  /\ exists r,
       outcome (Consult.POST (inr empty_problem) unreachable) = inr r
       /\ status r = 200%Z /\ is_4xx (status r) = false.
Proof.
  apply (POST_does_not_validate_problem empty_problem unreachable);
    [discriminate | right; reflexivity | reflexivity | reflexivity].
Defined.

(** A submission of type partner. *)
Lemma notify_validates_presence_and_needs_string_type_witness :
  exists r,
    outcome (Notify.POST (inr partner_submission)) = inr r
    /\ (status r = 400%Z
        <-> truthy (get partner_submission "formData") = false
            \/ truthy (get partner_submission "type") = false)
    /\ (truthy (get partner_submission "formData") = true ->
        truthy (get partner_submission "type") = true ->
        (exists s, get partner_submission "type" = Some (JStr s)) ->
        (exists e,
            ToString (Notify.formData_email (get partner_submission "formData")) = Some e) ->
        r = submission_received)
    /\ (truthy (get partner_submission "formData") = true ->
        truthy (get partner_submission "type") = true ->
        (forall s, get partner_submission "type" <> Some (JStr s)) ->
        r = submission_failed).
Proof.
  apply (notify_validates_presence_and_needs_string_type partner_submission).
  discriminate.
Defined.

(** The form against a gateway with a live reasoning service, and against an unreachable server. *)
Lemma handleSubmit_all_or_nothing_witness :
  snd (Form.handleSubmit support_form (gateway (answering (JStr "analysis"))) Form.initial)
    = Form.State false (JStr "analysis") ""
  /\ snd (Form.handleSubmit support_form unreachable Form.initial)
     = Form.State false JNull generic_error.
Proof.
  split.
  - apply (proj1 (handleSubmit_all_or_nothing support_form
                    (gateway (answering (JStr "analysis"))) Form.initial)
             (Fetched 200 "" (inr (JStr "analysis"))) (JStr "analysis"));
      reflexivity.
  - apply (proj2 (handleSubmit_all_or_nothing support_form unreachable Form.initial)).
    reflexivity.
Defined.

(** The renderer on the fallback object of the gateway. *)
Lemma renderer_throws_on_absent_list_slot_witness :
  exists what,
    Form.render_results (Consult.mockResponse (number := Z) "SaaS" "SMB")
      = throw (TypeError what)
    /\ Form.render_impact (get (Consult.mockResponse (number := Z) "SaaS" "SMB") "businessImpact")
       = throw (TypeError what).
Proof.
  apply (renderer_throws_on_absent_list_slot (Consult.mockResponse (number := Z) "SaaS" "SMB"));
    [reflexivity | reflexivity | right; left; reflexivity].
Defined.

(** The form, the gateway and the renderer together: with the external
    service unreachable, the gateway answers 200 with the fallback, the
    form stores it as [result], and rendering that state throws. *)
Lemma fallback_breaks_the_form :
  snd (Form.handleSubmit support_form (gateway unreachable) Form.initial)
    = Form.State false (Consult.mockResponse "SaaS" "SMB") ""
  /\ Form.render (snd (Form.handleSubmit support_form (gateway unreachable) Form.initial))
     = throw (TypeError "Cannot read properties of undefined (reading 'map')").
Proof.
  split; vm_compute; reflexivity.
Qed.

(** A list slot that is an empty array is shown with no item, and an
    absent string slot is shown as an empty block. *)
Lemma empty_list_slot_renders_no_items :
  Form.render_results lists_only
  = ret [Form.AnalysisComplete;
         Form.Card "AI Solution Recommendations" "r";
         Form.Card "Cost Savings" "";
         Form.Card "Revenue Potential" "";
         Form.Card "Time Savings" "";
         Form.Card "ROI Estimate" "";
         Form.Card "Risk Reduction" "";
         Form.Card "Competitive Advantage" "";
         Form.Card "Implementation Timeline" "";
         Form.Card "Resource Requirements" "";
         Form.Bullets "Key Success Metrics" [];
         Form.Bullets "Success Factors" [];
         Form.Bullets "Potential Challenges" [];
         Form.ReadyToImplement].
Proof. vm_compute; reflexivity. Qed.

(* ================================================================== *)
(** ** More on the consultation gateway *)
(* ================================================================== *)

Section GatewayEdges.
Context {number : Type} `{RT : JsRuntime number}.

Lemma fallback_response_status (industry companySize : value number) :
  status (fallback_response industry companySize) = 200%Z
  \/ status (fallback_response industry companySize) = 500%Z.
Proof.
  unfold fallback_response.
  destruct (ToString industry); [| now right].
  destruct (ToString companySize); [now left | now right].
Qed.

(** X1. The gateway never throws: whatever the request and whatever the
    external service does, the handler returns a response, and its status
    is 200 or 500. *)
Theorem consult_always_answers (req : request number) (backend : service number) :
  exists r,
    outcome (Consult.POST req backend) = inr r
    /\ (status r = 200%Z \/ status r = 500%Z).
Proof.
  destruct req as [e | body].
  - eexists; split; [reflexivity | now right].
  - assert (Hcases : body = JNull \/ body <> JNull)
      by (destruct body; (now left) || (right; discriminate)).
    destruct Hcases as [-> | Hbody].
    + eexists; split; [reflexivity | now right].
    + destruct (delegate_fails backend (delegate_body body)) eqn:Hfail.
      * rewrite (POST_on_delegate_failure _ _ Hbody Hfail).
        eexists; split; [reflexivity | apply fallback_response_status].
      * unfold delegate_fails in Hfail.
        destruct (backend (delegate_body body)) as [err | r] eqn:Hb; [discriminate |].
        apply orb_false_elim in Hfail as [Hok Hjson].
        apply negb_false_iff in Hok.
        destruct (fetched_json r) as [err | data] eqn:Hdata; [discriminate |].
        rewrite (POST_on_delegate_success _ _ _ _ Hbody Hb Hok Hdata).
        eexists; split; [reflexivity | now left].
Qed.

(** X2. The gateway leaves the external service alone exactly when the
    request has no body (it cannot be read as JSON, or it is [null]); such
    a request is answered with status 500 and the message
    [Failed to process consultation request]. *)
Theorem consult_skips_delegate_iff_unreadable
    (req : request number) (backend : service number) :
  (external_calls (trace (Consult.POST req backend)) = 0%nat <-> unreadable req)
  /\ (unreadable req ->
      outcome (Consult.POST req backend)
      = inr (NextResponse_json
               (JObj [("error", JStr "Failed to process consultation request")]) 500)).
Proof.
  split.
  - split.
    + intros Hcalls. destruct req as [e | body]; [left; eauto |].
      destruct body; try (rewrite POST_one_external_call in Hcalls by discriminate;
                          discriminate).
      now right.
    + intros Hun. now rewrite (proj1 (POST_unreadable req backend Hun)).
  - intros Hun. exact (proj2 (POST_unreadable req backend Hun)).
Qed.

Lemma lookup_payload (p i c e : value number) (k : string) :
  get (Consult.payload p i c e) k
  = if String.eqb k "problem" then p
    else if String.eqb k "industry" then i
    else if String.eqb k "companySize" then c
    else if String.eqb k "email" then e
    else None.
Proof.
  unfold Consult.payload, get.
  destruct (String.eqb_spec k "problem") as [-> | Hp].
  { destruct p, i, c, e; reflexivity. }
  destruct (String.eqb_spec k "industry") as [-> | Hi].
  { destruct p, i, c, e; reflexivity. }
  destruct (String.eqb_spec k "companySize") as [-> | Hc].
  { destruct p, i, c, e; reflexivity. }
  destruct (String.eqb_spec k "email") as [-> | He].
  { destruct p, i, c, e; reflexivity. }
  apply String.eqb_neq in Hp, Hi, Hc, He.
  destruct p, i, c, e; cbn; rewrite ?Hp, ?Hi, ?Hc, ?He; reflexivity.
Qed.

(** X3. The body sent to the external service carries the request's
    [problem], [industry], [companySize] and [email] unchanged (absent
    when the request lacks them), and no other property of the request. *)
Theorem delegate_forwards_four_fields (body : json number) (k : string) :
  get (delegate_body body) k
  = if existsb (String.eqb k) ["problem"; "industry"; "companySize"; "email"]
    then get body k
    else None.
Proof.
  unfold delegate_body. rewrite lookup_payload. cbn [existsb].
  destruct (String.eqb_spec k "problem") as [-> | _]; [reflexivity |].
  destruct (String.eqb_spec k "industry") as [-> | _]; [reflexivity |].
  destruct (String.eqb_spec k "companySize") as [-> | _]; [reflexivity |].
  destruct (String.eqb_spec k "email") as [-> | _]; reflexivity.
Qed.

(** X4. A request without [industry] and [companySize] still gets the
    fallback with status 200, and the template prints the missing values
    as the word [undefined]. *)
Theorem fallback_prints_undefined (body : json number) (backend : service number) :
  body <> JNull ->
  get body "industry" = None ->
  get body "companySize" = None ->
  delegate_fails backend (delegate_body body) = true ->
  outcome (Consult.POST (inr body) backend)
    = inr (NextResponse_json (Consult.mockResponse "undefined" "undefined") 200)
  /\ recommendations_mention
       (NextResponse_json (@Consult.mockResponse number "undefined" "undefined") 200)
       "the undefined industry" = true.
Proof.
  intros Hbody Hi Hc Hfail.
  rewrite (POST_on_delegate_failure _ _ Hbody Hfail), Hi, Hc.
  split; reflexivity.
Qed.

(** X5. The fallback does not mask every failure: when the delegate call
    fails and [industry] or [companySize] is an object with a property
    named [toString], the template literal throws and the request is
    answered with status 500. *)
Theorem fallback_throws_on_unprintable_field
    (body : json number) (backend : service number)
    (props : list (string * json number)) :
  body <> JNull ->
  delegate_fails backend (delegate_body body) = true ->
  get body "industry" = Some (JObj props)
  \/ get body "companySize" = Some (JObj props) ->
  has_own "toString" props = true ->
  outcome (Consult.POST (inr body) backend)
  = inr (NextResponse_json
           (JObj [("error", JStr "Failed to process consultation request")]) 500).
Proof.
  intros Hbody Hfail Hfield Hown.
  rewrite (POST_on_delegate_failure _ _ Hbody Hfail).
  unfold fallback_response.
  destruct Hfield as [-> | ->]; cbn [ToString ToString_json]; rewrite Hown.
  - reflexivity.
  - destruct (ToString (get body "industry")); reflexivity.
Qed.

End GatewayEdges.

(* ================================================================== *)
(** ** The login and signup routes *)
(* ================================================================== *)

Section AuthRoutes.
Context {number : Type} `{RT : JsRuntime number}.

Lemma login_destructure (body : json number) :
  body <> JNull ->
  Login.destructure body = ret (get body "email", get body "password").
Proof. destruct body; intros H; try reflexivity. now contradiction H. Qed.

Lemma signup_destructure (body : json number) :
  body <> JNull ->
  Signup.destructure body
  = ret (get body "email", get body "password", get body "fullName").
Proof. destruct body; intros H; try reflexivity. now contradiction H. Qed.

(** The login route on a readable body, branch by branch. *)
Lemma login_run (body : json number) (signInWithPassword : sign_in number) :
  body <> JNull ->
  outcome (Login.POST (inr body) signInWithPassword)
  = inr
      (if negb (truthy (get body "email")) || negb (truthy (get body "password"))
       then NextResponse_json (JObj [("error", JStr "Email and password are required")]) 400
       else
         match signInWithPassword (get body "email") (get body "password") with
         | inl e =>
             NextResponse_json
               (JObj [("error", JStr ("Internal server error: " ++ String_of_error e))]) 500
         | inr r =>
             match auth_error r with
             | Some message =>
                 NextResponse_json
                   (JObj [("error", JStr (or_default message "Invalid email or password"))])
                   401
             | None =>
                 if negb (truthy (Some (data_user r)))
                 then NextResponse_json
                        (JObj [("error", JStr "Login failed - no user data")]) 401
                 else NextResponse_json
                        (JObj [("success", JBool true); ("user", data_user r);
                               ("session", data_session r)]) 200
             end
         end)
  /\ external_calls (trace (Login.POST (inr body) signInWithPassword))
     = if negb (truthy (get body "email")) || negb (truthy (get body "password"))
       then 0%nat else 1%nat.
Proof.
  intros Hbody. unfold Login.POST.
  rewrite bind_await_value, login_destructure, bind_ret by assumption.
  destruct (negb (truthy (get body "email")) || negb (truthy (get body "password")));
    [split; reflexivity |].
  unfold call.
  destruct (signInWithPassword _ _) as [e | r]; [split; reflexivity |].
  cbn -[String.append truthy].
  destruct (auth_error r); [split; reflexivity |].
  destruct (negb (truthy (Some (data_user r)))); split; reflexivity.
Qed.

(** The signup route on a readable body, branch by branch. *)
Lemma signup_run (body : json number) (signUp : sign_up number) :
  body <> JNull ->
  outcome (Signup.POST (inr body) signUp)
  = inr
      (if negb (truthy (get body "email")) || negb (truthy (get body "password"))
          || negb (truthy (get body "fullName"))
       then NextResponse_json (JObj [("error", JStr "Missing required fields")]) 400
       else
         match signUp (get body "email") (get body "password") (get body "fullName") with
         | inl e =>
             NextResponse_json
               (JObj [("error", JStr ("Internal server error: " ++ String_of_error e))]) 500
         | inr r =>
             match auth_error r with
             | Some message =>
                 NextResponse_json
                   (JObj [("error", JStr (or_default message "Signup failed"))]) 400
             | None =>
                 NextResponse_json
                   (JObj [("success", JBool true); ("user", data_user r);
                          ("message", JStr "Signup successful!")]) 201
             end
         end)
  /\ external_calls (trace (Signup.POST (inr body) signUp))
     = if negb (truthy (get body "email")) || negb (truthy (get body "password"))
          || negb (truthy (get body "fullName"))
       then 0%nat else 1%nat.
Proof.
  intros Hbody. unfold Signup.POST.
  rewrite bind_await_value, signup_destructure, bind_ret by assumption.
  destruct (negb (truthy (get body "email")) || negb (truthy (get body "password"))
            || negb (truthy (get body "fullName")));
    [split; reflexivity |].
  unfold call.
  destruct (signUp _ _ _) as [e | r]; [split; reflexivity |].
  cbn -[String.append truthy].
  destruct (auth_error r); split; reflexivity.
Qed.

Lemma readable_or_not (req : request number) :
  unreadable req \/ exists body, req = inr body /\ body <> JNull.
Proof.
  destruct req as [e | body]; [left; left; eauto |].
  destruct body; try (right; eexists; split; [reflexivity | discriminate]).
  left; now right.
Qed.

Lemma falsy_pair (a b : bool) : negb a || negb b = true <-> a = false \/ b = false.
Proof. destruct a, b; cbn; intuition congruence. Qed.

(** X6. On a readable body the login route answers 400 exactly when
    [email] or [password] is missing or falsy; it then answers
    [Email and password are required] without calling the identity
    service, and otherwise calls it exactly once. *)
Theorem login_validates_before_calling
    (body : json number) (signInWithPassword : sign_in number) :
  body <> JNull ->
  exists r,
    outcome (Login.POST (inr body) signInWithPassword) = inr r
    /\ (status r = 400%Z
        <-> truthy (get body "email") = false \/ truthy (get body "password") = false)
    /\ (status r = 400%Z ->
        r = NextResponse_json (JObj [("error", JStr "Email and password are required")]) 400
        /\ external_calls (trace (Login.POST (inr body) signInWithPassword)) = 0%nat)
    /\ (status r <> 400%Z ->
        external_calls (trace (Login.POST (inr body) signInWithPassword)) = 1%nat).
Proof.
  intros Hbody.
  destruct (login_run body signInWithPassword Hbody) as [Hout Hcalls].
  rewrite Hout, Hcalls. eexists; split; [reflexivity |].
  rewrite <- falsy_pair.
  destruct (negb (truthy (get body "email")) || negb (truthy (get body "password"))).
  - cbn. repeat split; auto. intros H; now contradiction H.
  - destruct (signInWithPassword _ _) as [e | r];
      [| destruct (auth_error r);
         [| destruct (negb (truthy (Some (data_user r))))]];
      cbn [status]; repeat split; try discriminate; auto.
Qed.

(** X7. The login route answers 200 only for a readable body, when the
    identity service resolved without an error and with a user; the
    response then carries that user and that session. *)
Theorem login_success_is_vouched
    (req : request number) (signInWithPassword : sign_in number) (r : response number) :
  outcome (Login.POST req signInWithPassword) = inr r ->
  status r = 200%Z ->
  exists body res,
    req = inr body
    /\ truthy (get body "email") = true
    /\ truthy (get body "password") = true
    /\ signInWithPassword (get body "email") (get body "password") = inr res
    /\ auth_error res = None
    /\ truthy (Some (data_user res)) = true
    /\ Http.body r = JObj [("success", JBool true); ("user", data_user res);
                           ("session", data_session res)].
Proof.
  intros Hout Hst.
  destruct (readable_or_not req) as [[[e ->] | ->] | (body & -> & Hbody)].
  - cbn in Hout. injection Hout as Hr; subst r; cbn [status] in *. discriminate Hst.
  - cbn in Hout. injection Hout as Hr; subst r; cbn [status] in *. discriminate Hst.
  - rewrite (proj1 (login_run body signInWithPassword Hbody)) in Hout.
    injection Hout as Hr; subst r; cbn [status] in *.
    destruct (truthy (get body "email")) eqn:He; [| discriminate Hst].
    destruct (truthy (get body "password")) eqn:Hp; [| discriminate Hst].
    cbn [negb orb] in Hst |- *.
    destruct (signInWithPassword _ _) as [e | res] eqn:Hres; [discriminate Hst |].
    destruct (auth_error res) eqn:Herr; [discriminate Hst |].
    destruct (truthy (Some (data_user res))) eqn:Hu;
      pose proof Hu as Hu'; cbv [truthy] in Hu'; rewrite Hu' in Hst |- *;
      cbn [negb status] in Hst; [| discriminate Hst].
    exists body, res. repeat split; auto.
Qed.

(** X8. With credentials present, the login route maps what the identity
    service does: an error is answered 401 with the service's message (or
    [Invalid email or password] when the message is empty), a missing user
    is answered 401, and a rejected call is answered 500 with the text of
    the thrown value after [Internal server error: ]. *)
Theorem login_maps_identity_failures
    (body : json number) (signInWithPassword : sign_in number) :
  body <> JNull ->
  truthy (get body "email") = true ->
  truthy (get body "password") = true ->
  (forall res message,
      signInWithPassword (get body "email") (get body "password") = inr res ->
      auth_error res = Some message ->
      outcome (Login.POST (inr body) signInWithPassword)
      = inr (NextResponse_json
               (JObj [("error",
                       JStr (if String.eqb message ""
                             then "Invalid email or password" else message))]) 401))
  /\ (forall res,
        signInWithPassword (get body "email") (get body "password") = inr res ->
        auth_error res = None ->
        truthy (Some (data_user res)) = false ->
        outcome (Login.POST (inr body) signInWithPassword)
        = inr (NextResponse_json (JObj [("error", JStr "Login failed - no user data")]) 401))
  /\ (forall e,
        signInWithPassword (get body "email") (get body "password") = inl e ->
        outcome (Login.POST (inr body) signInWithPassword)
        = inr (NextResponse_json
                 (JObj [("error", JStr ("Internal server error: " ++ String_of_error e))])
                 500)).
Proof.
  intros Hbody He Hp.
  rewrite (proj1 (login_run body signInWithPassword Hbody)), He, Hp.
  cbn [negb orb].
  repeat split.
  - intros res message -> ->. reflexivity.
  - intros res -> -> ->. reflexivity.
  - intros e ->. reflexivity.
Qed.

(** X9. On a readable body the signup route calls the identity service
    only when [email], [password] and [fullName] are all truthy, and then
    exactly once; a missing field is answered 400 with
    [Missing required fields]. *)
Theorem signup_validates_before_calling
    (body : json number) (signUp : sign_up number) :
  body <> JNull ->
  (truthy (get body "email") = false
   \/ truthy (get body "password") = false
   \/ truthy (get body "fullName") = false ->
   outcome (Signup.POST (inr body) signUp)
     = inr (NextResponse_json (JObj [("error", JStr "Missing required fields")]) 400)
   /\ external_calls (trace (Signup.POST (inr body) signUp)) = 0%nat)
  /\ (truthy (get body "email") = true ->
      truthy (get body "password") = true ->
      truthy (get body "fullName") = true ->
      external_calls (trace (Signup.POST (inr body) signUp)) = 1%nat).
Proof.
  intros Hbody.
  destruct (signup_run body signUp Hbody) as [Hout Hcalls].
  rewrite Hout, Hcalls. split.
  - intros [-> | [-> | ->]]; cbn [negb orb]; rewrite ?orb_true_r; split; reflexivity.
  - intros -> -> ->. reflexivity.
Qed.


(** X11. The signup route answers an identity error with status 400 and
    the service's message ([Signup failed] when it is empty): the same
    status as a missing field, told apart by the message only. *)
Theorem signup_maps_identity_error
    (body : json number) (signUp : sign_up number)
    (res : auth_result number) (message : string) :
  body <> JNull ->
  truthy (get body "email") = true ->
  truthy (get body "password") = true ->
  truthy (get body "fullName") = true ->
  signUp (get body "email") (get body "password") (get body "fullName") = inr res ->
  auth_error res = Some message ->
  outcome (Signup.POST (inr body) signUp)
  = inr (NextResponse_json
           (JObj [("error", JStr (if String.eqb message "" then "Signup failed" else message))])
           400).
Proof.
  intros Hbody He Hp Hf Hres Herr.
  rewrite (proj1 (signup_run body signUp Hbody)), He, Hp, Hf.
  cbn [negb orb]. rewrite Hres, Herr. reflexivity.
Qed.

Lemma notify_success_trace (body : json number) :
  body <> JNull ->
  status (notify_answer (get body "formData") (get body "type")) = 200%Z ->
  exists line,
    trace (Notify.POST (inr body)) = [ConsoleLog [LStr line; LVal (get body "formData")]].
Proof.
  intros Hbody. unfold Notify.POST, notify_answer.
  rewrite bind_await_value.
  assert (Hd : Notify.destructure body = ret (get body "formData", get body "type")).
  { destruct body; try reflexivity. now contradiction Hbody. }
  rewrite Hd, bind_ret.
  destruct (negb (truthy (get body "formData")) || negb (truthy (get body "type")));
    [intros Hst; discriminate Hst |].
  unfold Notify.type_toUpperCase, interpolate.
  destruct (get body "type") as [[] |]; try (intros Hst; discriminate Hst).
  rewrite bind_ret.
  destruct (ToString (Notify.formData_email (get body "formData")));
    [| intros Hst; discriminate Hst].
  intros _. rewrite bind_ret. eexists. reflexivity.
Qed.

Lemma notify_answer_status (formData type : value number) :
  status (notify_answer formData type) = 200%Z
  \/ status (notify_answer formData type) = 400%Z
  \/ status (notify_answer formData type) = 500%Z.
Proof.
  unfold notify_answer.
  destruct (negb (truthy formData) || negb (truthy type)); [auto |].
  destruct type as [[] |]; auto.
  destruct (ToString _); auto.
Qed.

(** X12. The notify route keeps nothing and tells no one: it makes no
    call that leaves the process, it always answers, with status 200, 400
    or 500, and on 200 its only effect is one line on the console. *)
Theorem notify_only_logs (req : request number) :
  external_calls (trace (Notify.POST req)) = 0%nat
  /\ exists r,
       outcome (Notify.POST req) = inr r
       /\ (status r = 200%Z \/ status r = 400%Z \/ status r = 500%Z)
       /\ (status r = 200%Z ->
           exists line formData,
             trace (Notify.POST req) = [ConsoleLog [LStr line; LVal formData]]).
Proof.
  split; [apply notify_calls |].
  destruct (readable_or_not req) as [[[e ->] | ->] | (body & -> & Hbody)].
  - eexists; split; [reflexivity |]. split; [auto |]. intros Hst; discriminate Hst.
  - eexists; split; [reflexivity |]. split; [auto |]. intros Hst; discriminate Hst.
  - rewrite (notify_outcome body Hbody).
    eexists; split; [reflexivity |]. split; [apply notify_answer_status |].
    intros Hst. destruct (notify_success_trace body Hbody Hst) as [line Hline].
    eauto.
Qed.

End AuthRoutes.

(* ================================================================== *)
(** ** More on the consultation form *)
(* ================================================================== *)

Section FormEdges.
Context {number : Type} `{RT : JsRuntime number}.

Lemma handleSubmit_on_answer
    (formData : Form.form_data) (server : service number) (st : Form.state number)
    (r : fetched number) (data : json number) :
  server (Form.stringify formData) = inr r ->
  ok r = true ->
  fetched_json r = inr data ->
  Form.handleSubmit formData server st
  = ([Fetch "/api/consult" (Form.stringify formData)], Form.State false data "").
Proof.
  intros Hs Hok Hjson.
  unfold Form.handleSubmit, Form.submit, call, await.
  rewrite Hs. cbn. rewrite Hok. cbn. rewrite Hjson. reflexivity.
Qed.

(** X13. Whatever the server does, one submission makes exactly one
    request, a POST of the four form fields to [/api/consult], and ends
    with [loading] false; the state it leaves does not depend on the state
    it started from, so no earlier result or error survives. *)
Theorem handleSubmit_one_request
    (formData : Form.form_data) (server : service number)
    (st st' : Form.state number) :
  (exists rest,
      fst (Form.handleSubmit formData server st)
      = Fetch "/api/consult" (Form.stringify formData) :: rest
      /\ external_calls rest = 0%nat)
  /\ Form.loading (snd (Form.handleSubmit formData server st)) = false
  /\ Form.handleSubmit formData server st = Form.handleSubmit formData server st'.
Proof.
  unfold Form.handleSubmit, Form.submit, call, await.
  destruct (server (Form.stringify formData)) as [e | r]; cbn.
  - repeat split. eexists; split; reflexivity.
  - destruct (ok r); cbn.
    + destruct (fetched_json r); cbn; repeat split; eexists; split; reflexivity.
    + repeat split. eexists; split; reflexivity.
Qed.

(** X14. A 2xx answer whose body cannot be read as JSON counts as a
    failure: the generic error message is set and [result] stays [null]. *)
Theorem handleSubmit_unreadable_answer
    (formData : Form.form_data) (server : service number) (st : Form.state number)
    (r : fetched number) (e : Effects.error) :
  server (Form.stringify formData) = inr r ->
  is_2xx (fetched_status r) = true ->
  fetched_json r = inl e ->
  snd (Form.handleSubmit formData server st) = Form.State false JNull generic_error.
Proof.
  intros Hs Hok Hjson.
  unfold Form.handleSubmit, Form.submit, call, await.
  rewrite Hs. cbn. unfold ok. unfold is_2xx in Hok. rewrite Hok. cbn.
  rewrite Hjson. reflexivity.
Qed.

Lemma gateway_on_form (formData : Form.form_data) (backend : service number) :
  gateway backend (Form.stringify formData)
  = inr (Fetched 200 ""
           (inr (if delegate_fails backend (Form.stringify formData)
                 then Consult.mockResponse (Form.industry formData)
                                           (Form.companySize formData)
                 else match backend (Form.stringify formData) with
                      | inr r => match fetched_json r with
                                 | inr data => data
                                 | inl _ => JNull
                                 end
                      | inl _ => JNull
                      end))).
Proof.
  unfold gateway.
  assert (Hbody : Form.stringify (number := number) formData <> JNull) by discriminate.
  assert (Hsame : delegate_body (Form.stringify (number := number) formData)
                  = Form.stringify formData) by reflexivity.
  destruct (delegate_fails backend (Form.stringify formData)) eqn:Hfail.
  - rewrite (POST_on_delegate_failure _ backend Hbody) by now rewrite Hsame.
    reflexivity.
  - unfold delegate_fails in Hfail.
    destruct (backend (Form.stringify formData)) as [err | r] eqn:Hb; [discriminate |].
    apply orb_false_elim in Hfail as [Hok Hjson].
    apply negb_false_iff in Hok.
    destruct (fetched_json r) as [err | data] eqn:Hdata; [discriminate |].
    rewrite (POST_on_delegate_success _ backend r data Hbody) by (rewrite ?Hsame; auto).
    reflexivity.
Qed.

(** X15. The form in front of the gateway: the four fields typed into
    the form reach the external service unchanged, and whatever that
    service does the form ends without an error message; its [result] is
    the service's data when the delegate call succeeds and the fallback
    for the form's [industry] and [companySize] when it fails. *)
Theorem form_never_sees_gateway_failure
    (formData : Form.form_data) (backend : service number) (st : Form.state number) :
  delegate_body (Form.stringify (number := number) formData) = Form.stringify formData
  /\ Form.error (snd (Form.handleSubmit formData (gateway backend) st)) = ""
  /\ (delegate_fails backend (Form.stringify formData) = true ->
      Form.result (snd (Form.handleSubmit formData (gateway backend) st))
      = Consult.mockResponse (Form.industry formData) (Form.companySize formData))
  /\ (forall r data,
        backend (Form.stringify formData) = inr r ->
        ok r = true ->
        fetched_json r = inr data ->
        Form.result (snd (Form.handleSubmit formData (gateway backend) st)) = data).
Proof.
  pose proof (gateway_on_form formData backend) as Hg.
  split; [reflexivity |].
  rewrite (handleSubmit_on_answer formData (gateway backend) st _ _ Hg eq_refl eq_refl).
  cbn [snd Form.error Form.result].
  split; [reflexivity |]. split.
  - intros ->. reflexivity.
  - intros r data Hb Hok Hdata.
    unfold delegate_fails. rewrite Hb, Hok, Hdata. reflexivity.
Qed.

Lemma children_of_strings (items : list string) :
  Form.children (number := number) (map JStr items) = ret items.
Proof.
  induction items as [| s items IH]; [reflexivity |].
  cbn [map Form.children]. cbn [Form.child Form.child_text].
  rewrite bind_ret, IH, bind_ret. reflexivity.
Qed.

Lemma child_of_optional_string (slot : option string) :
  Form.child (number := number) (option_map JStr slot) = ret (text_of slot).
Proof. destruct slot; reflexivity. Qed.

(** X16. A result whose [recommendations] and eight narrative slots are
    strings or absent, and whose three list slots are arrays of strings,
    is rendered as the success message, the recommendations, the eleven
    blocks in the fixed display order and the call to action; an absent
    narrative slot gives an empty block, and the items of a list are
    shown in array order. *)
Theorem renderer_keeps_display_order
    (result : json number) (bi : list (string * json number))
    (recommendations cost revenue time roi risk advantage timeline resources
       : option string)
    (metrics factors challenges : list string) :
  get result "recommendations" = option_map JStr recommendations ->
  get result "businessImpact" = Some (JObj bi) ->
  lookup "cost_savings" bi = option_map JStr cost ->
  lookup "revenue_potential" bi = option_map JStr revenue ->
  lookup "time_savings" bi = option_map JStr time ->
  lookup "roi_estimate" bi = option_map JStr roi ->
  lookup "risk_reduction" bi = option_map JStr risk ->
  lookup "competitive_advantage" bi = option_map JStr advantage ->
  lookup "implementation_timeline" bi = option_map JStr timeline ->
  lookup "resource_requirements" bi = option_map JStr resources ->
  lookup "key_metrics" bi = Some (JArr (map JStr metrics)) ->
  lookup "success_factors" bi = Some (JArr (map JStr factors)) ->
  lookup "potential_challenges" bi = Some (JArr (map JStr challenges)) ->
  Form.render_results result
  = ret [Form.AnalysisComplete;
         Form.Card "AI Solution Recommendations" (text_of recommendations);
         Form.Card "Cost Savings" (text_of cost);
         Form.Card "Revenue Potential" (text_of revenue);
         Form.Card "Time Savings" (text_of time);
         Form.Card "ROI Estimate" (text_of roi);
         Form.Card "Risk Reduction" (text_of risk);
         Form.Card "Competitive Advantage" (text_of advantage);
         Form.Card "Implementation Timeline" (text_of timeline);
         Form.Card "Resource Requirements" (text_of resources);
         Form.Bullets "Key Success Metrics" metrics;
         Form.Bullets "Success Factors" factors;
         Form.Bullets "Potential Challenges" challenges;
         Form.ReadyToImplement].
Proof.
  intros Hrec Hbi Hcost Hrev Htime Hroi Hrisk Hadv Hline Hres Hm Hf Hc.
  assert (Hobj : exists props, result = JObj props).
  { destruct result; try discriminate Hbi. eauto. }
  destruct Hobj as [props ->].
  unfold Form.render_results.
  change (truthy (Some (JObj props))) with true. cbv iota.
  rewrite Hbi, Hrec.
  change (truthy (Some (JObj bi))) with true. cbv iota.
  unfold Form.impact_lists, Form.impact_blocks, Form.slot_of, get.
  rewrite Hm, Hf, Hc, Hcost, Hrev, Htime, Hroi, Hrisk, Hadv, Hline, Hres.
  cbn [Form.map_items].
  rewrite !bind_ret.
  rewrite !child_of_optional_string, !bind_ret.
  rewrite !children_of_strings, !bind_ret.
  reflexivity.
Qed.

(** X17. [businessImpact] is optional for the renderer: a result without
    it is rendered as the success message, the recommendations and the
    call to action, with no business impact block. *)
Theorem renderer_without_impact
    (result : json number) (recommendations : option string) :
  truthy (Some result) = true ->
  get result "recommendations" = option_map JStr recommendations ->
  get result "businessImpact" = None ->
  Form.render_results result
  = ret [Form.AnalysisComplete;
         Form.Card "AI Solution Recommendations" (text_of recommendations);
         Form.ReadyToImplement].
Proof.
  intros Ht Hrec Hbi.
  unfold Form.render_results. rewrite Ht, Hbi, Hrec.
  cbn [truthy]. rewrite bind_ret, child_of_optional_string, bind_ret.
  reflexivity.
Qed.

(** X18. A structured value where text is expected stops the render: when
    [recommendations] is a JSON object (and the list slots, if any, are
    arrays), React rejects it as a child. *)
Theorem renderer_rejects_object_child
    (result : json number) (props : list (string * json number)) :
  truthy (Some result) = true ->
  get result "recommendations" = Some (JObj props) ->
  (truthy (get result "businessImpact") = false
   \/ exists lists, Form.impact_lists (get result "businessImpact") = ret lists) ->
  Form.render_results result
  = throw (Error "Objects are not valid as a React child").
Proof.
  intros Ht Hrec Himpact.
  unfold Form.render_results. rewrite Ht, Hrec.
  destruct Himpact as [Hfalsy | [lists Hlists]].
  - rewrite Hfalsy, bind_ret. reflexivity.
  - destruct (truthy (get result "businessImpact")).
    + rewrite Hlists, !bind_ret. reflexivity.
    + rewrite bind_ret. reflexivity.
Qed.

(** Form, gateway and renderer together: for every form input, when
    the delegate call fails the form stores the fallback as its result,
    and rendering that state throws at the [.map] call on the absent
    [success_factors]. *)
Lemma fallback_result_is_not_renderable
    (formData : Form.form_data) (backend : service number) (st : Form.state number) :
  delegate_fails backend (Form.stringify formData) = true ->
  Form.render (snd (Form.handleSubmit formData (gateway backend) st))
  = throw (TypeError "Cannot read properties of undefined (reading 'map')").
Proof.
  intros Hfail.
  pose proof (gateway_on_form formData backend) as Hg.
  rewrite (handleSubmit_on_answer formData (gateway backend) st _ _ Hg eq_refl eq_refl).
  rewrite Hfail. reflexivity.
Qed.

End FormEdges.

(* ================================================================== *)
(** ** The auth page *)
(* ================================================================== *)

Section AuthPage.
Context {number : Type} `{RT : JsRuntime number}.

(** X19. Whatever the server does, one submission of the auth page makes
    exactly one request, to the login or the signup route according to
    [mode] and with the body of that mode, ends with [loading] false, and
    leaves [mode] and the typed fields as they were. *)
Theorem auth_submit_one_request
    (server : string -> service number) (st : Auth.state number) :
  (exists rest,
      fst (Auth.handleSubmit server st)
      = Auth.Post (Auth.endpoint (Auth.mode st))
                  (Auth.request_body (Auth.mode st) (Auth.formData st)) :: rest
      /\ existsb is_post rest = false)
  /\ Auth.loading (snd (Auth.handleSubmit server st)) = false
  /\ Auth.mode (snd (Auth.handleSubmit server st)) = Auth.mode st
  /\ Auth.formData (snd (Auth.handleSubmit server st)) = Auth.formData st.
Proof.
  unfold Auth.handleSubmit, Auth.try_block.
  cbn [Auth.mode Auth.formData Auth.setLoading Auth.setError Auth.setSuccess].
  destruct (server _ _) as [e | r].
  { repeat split. eexists; split; reflexivity. }
  destruct (fetched_json r) as [e | data].
  { repeat split. eexists; split; reflexivity. }
  destruct (negb (ok r)).
  { destruct data; repeat split; eexists; split; reflexivity. }
  destruct data; try (repeat split; eexists; split; reflexivity);
    (destruct (truthy _);
     [destruct (ToString _) |]; repeat split; eexists; split; reflexivity).
Qed.

(** X20. A token is stored only on success: if the page writes to
    [localStorage], the key is [auth_token], the server answered with a
    2xx status and a JSON body whose [session.access_token] converts to
    the stored string, the success message is shown, no error is shown,
    and the redirect timer is set. *)
Theorem auth_token_only_on_success
    (server : string -> service number) (st : Auth.state number) (key token : string) :
  In (Auth.SetItem key token) (fst (Auth.handleSubmit server st)) ->
  key = "auth_token"
  /\ Auth.success (snd (Auth.handleSubmit server st)) = Auth.success_message (Auth.mode st)
  /\ Auth.error (snd (Auth.handleSubmit server st)) = JStr ""
  /\ In (Auth.SetTimeout (Auth.mode st) 1500) (fst (Auth.handleSubmit server st))
  /\ exists r data,
       server (Auth.endpoint (Auth.mode st))
              (Auth.request_body (Auth.mode st) (Auth.formData st)) = inr r
       /\ ok r = true
       /\ fetched_json r = inr data
       /\ truthy (get data "session") = true
       /\ ToString (Form.slot_of (get data "session") "access_token") = Some token.
Proof.
  unfold Auth.handleSubmit, Auth.try_block.
  cbn [Auth.mode Auth.formData Auth.setLoading Auth.setError Auth.setSuccess].
  destruct (server _ _) as [e | r] eqn:Hs.
  { cbn. intros [H | []]; discriminate H. }
  destruct (fetched_json r) as [e | data] eqn:Hjson.
  { cbn. intros [H | []]; discriminate H. }
  destruct (ok r) eqn:Hok; cbn [negb].
  2: { destruct data; cbn; intros [H | []]; discriminate H. }
  assert (Hnull : data = JNull \/ data <> JNull)
    by (destruct data; (now left) || (right; discriminate)).
  destruct Hnull as [-> | Hdata].
  { cbn. intros [H | []]; discriminate H. }
  assert (Hshape :
    forall A (x y : A),
      match data with JNull => x | _ => y end = y)
    by (intros A x y; destruct data; try reflexivity; now contradiction Hdata).
  rewrite Hshape.
  destruct (truthy (get data "session")) eqn:Hsession.
  2: { cbn. intros [H | [H | []]]; discriminate H. }
  destruct (ToString (Form.slot_of (get data "session") "access_token")) as [tok |] eqn:Htok.
  2: { cbn. intros [H | []]; discriminate H. }
  cbn. intros [H | [H | [H | []]]]; try discriminate H.
  injection H as <- <-.
  repeat split; auto.
  exists r, data. repeat split; auto.
Qed.

Lemma served_login (signInWithPassword : sign_in number) (signUp : sign_up number)
    (sent : json number) :
  auth_api signInWithPassword signUp "/api/auth/login" sent
  = served (Login.POST (inr sent) signInWithPassword).
Proof. reflexivity. Qed.

Lemma served_signup (signInWithPassword : sign_in number) (signUp : sign_up number)
    (sent : json number) :
  auth_api signInWithPassword signUp "/api/auth/signup" sent
  = served (Signup.POST (inr sent) signUp).
Proof. reflexivity. Qed.

Lemma truthy_string (s : string) :
  truthy (number := number) (Some (JStr s)) = negb (String.eqb s "").
Proof. reflexivity. Qed.

(** X21. The auth page in front of the login route: with an empty email
    or password the page shows [Email and password are required], shows
    no success message, stores no token and sets no timer. *)
Theorem auth_login_missing_credentials
    (signInWithPassword : sign_in number) (signUp : sign_up number)
    (st : Auth.state number) :
  Auth.mode st = Auth.login ->
  Auth.email (Auth.formData st) = "" \/ Auth.password (Auth.formData st) = "" ->
  Auth.handleSubmit (auth_api signInWithPassword signUp) st
  = ([Auth.Post "/api/auth/login" (Auth.request_body Auth.login (Auth.formData st))],
     Auth.State Auth.login false (JStr "Email and password are required") ""
                (Auth.formData st)).
Proof.
  destruct st as [m busy err ok_msg fields]. cbn [Auth.mode Auth.formData].
  intros -> Hempty.
  unfold Auth.handleSubmit, Auth.try_block.
  cbn [Auth.mode Auth.formData Auth.setLoading Auth.setError Auth.setSuccess
       Auth.endpoint].
  rewrite served_login. unfold served.
  rewrite (proj1 (login_run _ signInWithPassword
                    (ltac:(discriminate)
                      : Auth.request_body Auth.login fields <> JNull))).
  cbn [Auth.request_body get lookup String.eqb Ascii.eqb Bool.eqb].
  rewrite !truthy_string.
  destruct Hempty as [-> | ->]; cbn [String.eqb negb orb]; rewrite ?orb_true_r;
    reflexivity.
Qed.

(** X22. The auth page in front of the login route: when the identity
    service refuses the credentials with a message, the page shows that
    message as it is; when the call to the identity service is rejected,
    the page shows the route's [Internal server error: ...] text. In both
    cases nothing is stored and no timer is set. *)
Theorem auth_login_shows_identity_error
    (signInWithPassword : sign_in number) (signUp : sign_up number)
    (st : Auth.state number) :
  Auth.mode st = Auth.login ->
  Auth.email (Auth.formData st) <> "" ->
  Auth.password (Auth.formData st) <> "" ->
  (forall res message,
      signInWithPassword (Some (JStr (Auth.email (Auth.formData st))))
                         (Some (JStr (Auth.password (Auth.formData st)))) = inr res ->
      auth_error res = Some message ->
      message <> "" ->
      Auth.handleSubmit (auth_api signInWithPassword signUp) st
      = ([Auth.Post "/api/auth/login" (Auth.request_body Auth.login (Auth.formData st))],
         Auth.State Auth.login false (JStr message) "" (Auth.formData st)))
  /\ (forall e,
        signInWithPassword (Some (JStr (Auth.email (Auth.formData st))))
                           (Some (JStr (Auth.password (Auth.formData st)))) = inl e ->
        Auth.handleSubmit (auth_api signInWithPassword signUp) st
        = ([Auth.Post "/api/auth/login" (Auth.request_body Auth.login (Auth.formData st))],
           Auth.State Auth.login false
             (JStr ("Internal server error: " ++ String_of_error e)) ""
             (Auth.formData st))).
Proof.
  destruct st as [m busy err ok_msg fields]. cbn [Auth.mode Auth.formData].
  intros -> He Hp.
  apply String.eqb_neq in He, Hp.
  assert (Hrun :
    outcome (Login.POST (inr (Auth.request_body Auth.login fields)) signInWithPassword)
    = inr match signInWithPassword (Some (JStr (Auth.email fields)))
                                   (Some (JStr (Auth.password fields))) with
          | inl e =>
              NextResponse_json
                (JObj [("error", JStr ("Internal server error: " ++ String_of_error e))]) 500
          | inr r =>
              match auth_error r with
              | Some message =>
                  NextResponse_json
                    (JObj [("error", JStr (or_default message "Invalid email or password"))])
                    401
              | None =>
                  if negb (truthy (Some (data_user r)))
                  then NextResponse_json
                         (JObj [("error", JStr "Login failed - no user data")]) 401
                  else NextResponse_json
                         (JObj [("success", JBool true); ("user", data_user r);
                                ("session", data_session r)]) 200
              end
          end).
  { rewrite (proj1 (login_run _ signInWithPassword
                      (ltac:(discriminate)
                        : Auth.request_body Auth.login fields <> JNull))).
    cbn [Auth.request_body get lookup String.eqb Ascii.eqb Bool.eqb].
    rewrite !truthy_string, He, Hp. reflexivity. }
  split.
  - intros res message Hres Herr Hmsg.
    apply String.eqb_neq in Hmsg.
    unfold Auth.handleSubmit, Auth.try_block.
    cbn [Auth.mode Auth.formData Auth.setLoading Auth.setError Auth.setSuccess
         Auth.endpoint].
    rewrite served_login. unfold served. rewrite Hrun, Hres, Herr.
    unfold or_default. rewrite Hmsg.
    cbn -[String.append truthy]. rewrite truthy_string, Hmsg. reflexivity.
  - intros e Hres.
    unfold Auth.handleSubmit, Auth.try_block.
    cbn [Auth.mode Auth.formData Auth.setLoading Auth.setError Auth.setSuccess
         Auth.endpoint].
    rewrite served_login. unfold served. rewrite Hrun, Hres.
    reflexivity.
Qed.

End AuthPage.

Section AuthFlows.
Context {number : Type} `{RT : JsRuntime number}.

(** X23. The auth page in front of the login route, on success: when the
    identity service vouches for the credentials and its session carries a
    string [access_token], the page posts once, stores that token under
    [auth_token], sets the timer, shows the success message and no error;
    when the timer fires the page goes to [/]. *)
Theorem auth_login_success_stores_token
    (signInWithPassword : sign_in number) (signUp : sign_up number)
    (st : Auth.state number) (res : auth_result number) (token : string) :
  Auth.mode st = Auth.login ->
  Auth.email (Auth.formData st) <> "" ->
  Auth.password (Auth.formData st) <> "" ->
  signInWithPassword (Some (JStr (Auth.email (Auth.formData st))))
                     (Some (JStr (Auth.password (Auth.formData st)))) = inr res ->
  auth_error res = None ->
  truthy (Some (data_user res)) = true ->
  get (data_session res) "access_token" = Some (JStr token) ->
  Auth.handleSubmit (auth_api signInWithPassword signUp) st
    = ([Auth.Post "/api/auth/login" (Auth.request_body Auth.login (Auth.formData st));
        Auth.SetItem "auth_token" token;
        Auth.SetTimeout Auth.login 1500],
       Auth.State Auth.login false (JStr "") "Login successful! Redirecting..."
                  (Auth.formData st))
  /\ fst (Auth.timeout_callback Auth.login
            (snd (Auth.handleSubmit (auth_api signInWithPassword signUp) st)))
     = Some "/".
Proof.
  destruct st as [m busy err ok_msg fields]. cbn [Auth.mode Auth.formData].
  intros -> He Hp Hres Herr Huser Htoken.
  apply String.eqb_neq in He, Hp.
  split; [| reflexivity].
  unfold Auth.handleSubmit, Auth.try_block.
  cbn [Auth.mode Auth.formData Auth.setLoading Auth.setError Auth.setSuccess
       Auth.endpoint].
  rewrite served_login. unfold served.
  rewrite (proj1 (login_run _ signInWithPassword
                    (ltac:(discriminate)
                      : Auth.request_body Auth.login fields <> JNull))).
  cbn [Auth.request_body get lookup String.eqb Ascii.eqb Bool.eqb].
  rewrite !truthy_string, He, Hp. cbn [negb orb].
  rewrite Hres, Herr, Huser.
  assert (Hsession : exists props, data_session res = JObj props).
  { destruct (data_session res); try discriminate Htoken. eauto. }
  destruct Hsession as [props Hprops].
  rewrite Hprops in Htoken. cbn [get] in Htoken.
  cbn -[String.append truthy ToString lookup].
  rewrite Hprops.
  set (session := lookup "session" _).
  assert (Hsession : session = Some (JObj props)) by reflexivity.
  rewrite Hsession. cbn [truthy Form.slot_of get].
  rewrite Htoken. reflexivity.
Qed.

(** X24. The auth page in front of the signup route: with an empty name,
    email or password the page shows [Missing required fields]; when the
    identity service accepts the signup, the page shows the signup
    success message, stores no token, sets the timer, and when the timer
    fires it returns to login mode with the three fields emptied. *)
Theorem auth_signup_flow
    (signInWithPassword : sign_in number) (signUp : sign_up number)
    (st : Auth.state number) :
  Auth.mode st = Auth.signup ->
  (Auth.email (Auth.formData st) = ""
   \/ Auth.password (Auth.formData st) = ""
   \/ Auth.fullName (Auth.formData st) = "" ->
   Auth.handleSubmit (auth_api signInWithPassword signUp) st
   = ([Auth.Post "/api/auth/signup" (Auth.request_body Auth.signup (Auth.formData st))],
      Auth.State Auth.signup false (JStr "Missing required fields") ""
                 (Auth.formData st)))
  /\ (forall res,
        Auth.email (Auth.formData st) <> "" ->
        Auth.password (Auth.formData st) <> "" ->
        Auth.fullName (Auth.formData st) <> "" ->
        signUp (Some (JStr (Auth.email (Auth.formData st))))
               (Some (JStr (Auth.password (Auth.formData st))))
               (Some (JStr (Auth.fullName (Auth.formData st)))) = inr res ->
        auth_error res = None ->
        Auth.handleSubmit (auth_api signInWithPassword signUp) st
          = ([Auth.Post "/api/auth/signup"
                        (Auth.request_body Auth.signup (Auth.formData st));
              Auth.SetTimeout Auth.signup 1500],
             Auth.State Auth.signup false (JStr "")
                        "Signup successful! Check your email to verify."
                        (Auth.formData st))
        /\ Auth.timeout_callback Auth.signup
             (snd (Auth.handleSubmit (auth_api signInWithPassword signUp) st))
           = (None,
              Auth.State Auth.login false (JStr "")
                         "Signup successful! Check your email to verify."
                         (Auth.FormData "" "" ""))).
Proof.
  destruct st as [m busy err ok_msg fields]. cbn [Auth.mode Auth.formData].
  intros ->.
  assert (Hrun := proj1 (signup_run _ signUp
                    (ltac:(discriminate)
                      : Auth.request_body Auth.signup fields <> JNull))).
  cbn [Auth.request_body get lookup String.eqb Ascii.eqb Bool.eqb] in Hrun.
  rewrite !truthy_string in Hrun.
  split.
  - intros Hempty.
    unfold Auth.handleSubmit, Auth.try_block.
    cbn [Auth.mode Auth.formData Auth.setLoading Auth.setError Auth.setSuccess
         Auth.endpoint].
    rewrite served_signup. unfold served.
    cbn [Auth.request_body]. rewrite Hrun.
    destruct Hempty as [-> | [-> | ->]]; cbn [String.eqb negb orb];
      rewrite ?orb_true_r; reflexivity.
  - intros res He Hp Hf Hres Herr.
    apply String.eqb_neq in He, Hp, Hf.
    rewrite He, Hp, Hf, Hres, Herr in Hrun. cbn [negb orb] in Hrun.
    assert (Hsubmit :
      Auth.handleSubmit (auth_api signInWithPassword signUp)
        (Auth.State Auth.signup busy err ok_msg fields)
      = ([Auth.Post "/api/auth/signup" (Auth.request_body Auth.signup fields);
          Auth.SetTimeout Auth.signup 1500],
         Auth.State Auth.signup false (JStr "")
                    "Signup successful! Check your email to verify." fields)).
    { unfold Auth.handleSubmit, Auth.try_block.
      cbn [Auth.mode Auth.formData Auth.setLoading Auth.setError Auth.setSuccess
           Auth.endpoint].
      rewrite served_signup. unfold served.
      cbn [Auth.request_body]. rewrite Hrun. reflexivity. }
    rewrite Hsubmit. split; reflexivity.
Qed.

(** X25. The page reads the body before it looks at the status, and it
    sets the success message before it looks into the body: to a 2xx
    answer whose JSON body is [null] it shows the success message and the
    generic error together, and to an answer whose body is not JSON it
    shows the generic error whatever the status. *)
Theorem auth_submit_body_before_status
    (server : string -> service number) (st : Auth.state number) (r : fetched number) :
  server (Auth.endpoint (Auth.mode st))
         (Auth.request_body (Auth.mode st) (Auth.formData st)) = inr r ->
  (fetched_json r = inr JNull ->
   ok r = true ->
   Auth.success (snd (Auth.handleSubmit server st)) = Auth.success_message (Auth.mode st)
   /\ Auth.error (snd (Auth.handleSubmit server st))
      = JStr "An error occurred. Please try again.")
  /\ (forall e,
        fetched_json r = inl e ->
        Auth.success (snd (Auth.handleSubmit server st)) = ""
        /\ Auth.error (snd (Auth.handleSubmit server st))
           = JStr "An error occurred. Please try again.").
Proof.
  intros Hs.
  unfold Auth.handleSubmit, Auth.try_block.
  cbn [Auth.mode Auth.formData Auth.setLoading Auth.setError Auth.setSuccess].
  rewrite Hs. split.
  - intros -> ->. split; reflexivity.
  - intros e ->. split; reflexivity.
Qed.

(** Pressing the toggle twice gives back the mode the page was in, and
    each press clears both messages. *)
Lemma toggle_mode_twice (st : Auth.state number) :
  Auth.mode (Auth.toggle_mode (Auth.toggle_mode st)) = Auth.mode st
  /\ Auth.mode (Auth.toggle_mode st) <> Auth.mode st
  /\ Auth.error (Auth.toggle_mode st) = JStr ""
  /\ Auth.success (Auth.toggle_mode st) = "".
Proof.
  destruct st as [[] busy err ok_msg fields]; repeat split; discriminate.
Qed.

End AuthFlows.

(* ================================================================== *)
(** ** The dashboard heading *)
(* ================================================================== *)

Lemma before_has_no_separator (sep : ascii) (s : string) :
  occurs sep (Dashboard.before sep s) = false.
Proof.
  induction s as [| c s IH]; [reflexivity |].
  cbn [Dashboard.before].
  destruct (Ascii.eqb c sep) eqn:Hc; [reflexivity |].
  cbn [occurs]. now rewrite Hc, IH.
Qed.

Lemma before_is_prefix (sep : ascii) (s : string) :
  exists rest,
    s = Dashboard.before sep s ++ rest
    /\ (rest = "" \/ exists tail, rest = String sep tail).
Proof.
  induction s as [| c s (rest & IH & Hrest)].
  - exists "". split; [reflexivity | now left].
  - cbn [Dashboard.before].
    destruct (Ascii.eqb_spec c sep) as [-> | Hc].
    + exists (String sep s). split; [reflexivity | right; eauto].
    + exists rest. split; [| exact Hrest].
      cbn [append]. now rewrite <- IH.
Qed.

Section DashboardFacts.
Context {number : Type} `{RT : JsRuntime number}.

(** X26. For a user without a full name whose email is a string, the
    dashboard greets with the part of the email before its first [@]: the
    greeting name contains no [@], and the email is that name followed by
    nothing or by [@] and the rest. *)
Theorem welcome_uses_email_local_part (user : json number) (address : string) :
  user <> JNull ->
  truthy (Dashboard.full_name user) = false ->
  get user "email" = Some (JStr address) ->
  Dashboard.welcome user
    = ret ("Welcome back, " ++ Dashboard.before "@" address ++ "!")
  /\ occurs "@" (Dashboard.before "@" address) = false
  /\ exists rest,
       address = Dashboard.before "@" address ++ rest
       /\ (rest = "" \/ exists tail, rest = String "@" tail).
Proof.
  intros Huser Hname Hemail. split; [| split].
  - unfold Dashboard.welcome, Dashboard.welcome_name, Dashboard.email_name.
    rewrite Hname, Hemail.
    destruct user; try (now contradiction Huser); rewrite !bind_ret; reflexivity.
  - apply before_has_no_separator.
  - apply before_is_prefix.
Qed.

(** X27. A truthy full name takes precedence over the email in the
    greeting, and a user with neither is greeted with an empty name; an
    email that is present but not a string (and no full name) makes the
    component throw. *)
Theorem welcome_name_precedence (user : json number) :
  user <> JNull ->
  (forall name,
      Dashboard.full_name user = Some (JStr name) -> name <> "" ->
      Dashboard.welcome user = ret ("Welcome back, " ++ name ++ "!"))
  /\ (truthy (Dashboard.full_name user) = false ->
      get user "email" = None ->
      Dashboard.welcome user = ret "Welcome back, !")
  /\ (truthy (Dashboard.full_name user) = false ->
      forall v, get user "email" = Some v ->
      v <> JNull -> is_string v = false ->
      Dashboard.welcome user
      = throw (TypeError "user.email?.split is not a function")).
Proof.
  intros Huser.
  assert (Hshape :
    forall A (x y : A), match user with JNull => x | _ => y end = y)
    by (intros A x y; destruct user; try reflexivity; now contradiction Huser).
  unfold Dashboard.welcome, Dashboard.welcome_name, Dashboard.email_name.
  rewrite Hshape.
  repeat split.
  - intros name Hname Hne. apply String.eqb_neq in Hne.
    rewrite Hname. cbn [truthy]. rewrite Hne. cbn [negb].
    rewrite !bind_ret. reflexivity.
  - intros -> ->. rewrite !bind_ret. reflexivity.
  - intros -> v -> Hnull Hstr.
    destruct v; try reflexivity; [now contradiction Hnull | discriminate Hstr].
Qed.

End DashboardFacts.

(* ================================================================== *)
(** ** The admin dashboard *)
(* ================================================================== *)

Section AdminFacts.
Context {number : Type}.
Variable toLowerCase : string -> string.
Variable JSON_stringify : json number -> string.

Lemma includes_empty (s : string) : includes "" s = true.
Proof. destruct s; reflexivity. Qed.

Lemma count_known_types (submissions : list (Admin.Submission number)) :
  (Admin.count_type "signup" submissions
   + Admin.count_type "consultation" submissions
   + Admin.count_type "contact" submissions
   + List.length
       (List.filter
          (fun s => negb (String.eqb (Admin.type s) "signup"
                          || String.eqb (Admin.type s) "consultation"
                          || String.eqb (Admin.type s) "contact"))
          submissions)
   = List.length submissions)%nat.
Proof.
  unfold Admin.count_type.
  induction submissions as [| s rest IH]; [reflexivity |].
  cbn [List.filter List.length].
  destruct (String.eqb_spec (Admin.type s) "signup") as [E1 | N1].
  - rewrite E1. cbn. lia.
  - destruct (String.eqb_spec (Admin.type s) "consultation") as [E2 | N2].
    + rewrite E2. cbn. lia.
    + destruct (String.eqb_spec (Admin.type s) "contact") as [E3 | N3]; cbn; lia.
Qed.

(** X28. The three per-type counters of the admin dashboard never add up
    to more than the total, and they add up to the total exactly when
    every row has one of the types signup, consultation and contact. *)
Theorem stats_partition (submissions : list (Admin.Submission number)) :
  (Admin.signups (Admin.stats submissions)
   + Admin.consultations (Admin.stats submissions)
   + Admin.contacts (Admin.stats submissions)
   <= Admin.total (Admin.stats submissions))%nat
  /\ ((Admin.signups (Admin.stats submissions)
       + Admin.consultations (Admin.stats submissions)
       + Admin.contacts (Admin.stats submissions)
       = Admin.total (Admin.stats submissions))%nat
      <-> forall s, In s submissions ->
            Admin.type s = "signup" \/ Admin.type s = "consultation"
            \/ Admin.type s = "contact").
Proof.
  cbn [Admin.stats Admin.total Admin.signups Admin.consultations Admin.contacts].
  pose proof (count_known_types submissions) as Hsum.
  set (others := List.filter _ submissions) in Hsum.
  split; [lia |]. split.
  - intros Heq s Hin.
    assert (Hnone : others = []) by (destruct others; [reflexivity | cbn in Hsum; lia]).
    destruct (String.eqb_spec (Admin.type s) "signup") as [E1 | N1]; [auto |].
    destruct (String.eqb_spec (Admin.type s) "consultation") as [E2 | N2]; [auto |].
    destruct (String.eqb_spec (Admin.type s) "contact") as [E3 | N3]; [auto |].
    exfalso.
    assert (Hs : In s others).
    { apply filter_In. split; [exact Hin |].
      apply String.eqb_neq in N1, N2, N3. now rewrite N1, N2, N3. }
    rewrite Hnone in Hs. exact Hs.
  - intros Hall.
    assert (Hnone : others = []).
    { destruct others as [| s rest] eqn:Ho; [reflexivity |].
      assert (Hs : In s others) by (rewrite Ho; now left).
      apply filter_In in Hs as [Hin Hneg].
      destruct (Hall s Hin) as [E | [E | E]]; rewrite E in Hneg; discriminate Hneg. }
    rewrite Hnone in Hsum. cbn in Hsum. lia.
Qed.

(** X29. The table of the admin dashboard shows a row exactly when it is
    in the loaded rows, its type passes the type filter ([all] passes
    every type) and the lower-cased search term occurs in its lower-cased
    email or in its lower-cased JSON data; with the filter on [all] and a
    search term that lower-cases to the empty string, every row is shown. *)
Theorem filtered_rows
    (filter searchTerm : string) (submissions : list (Admin.Submission number)) :
  (forall s,
      In s (Admin.filteredSubmissions toLowerCase JSON_stringify filter searchTerm submissions)
      <-> In s submissions
          /\ (filter = "all" \/ Admin.type s = filter)
          /\ (includes (toLowerCase searchTerm) (toLowerCase (Admin.email s)) = true
              \/ includes (toLowerCase searchTerm)
                          (toLowerCase (JSON_stringify (Admin.data s))) = true))
  /\ (filter = "all" -> toLowerCase searchTerm = "" ->
      Admin.filteredSubmissions toLowerCase JSON_stringify filter searchTerm submissions
      = submissions).
Proof.
  split.
  - intros s. unfold Admin.filteredSubmissions. rewrite filter_In.
    unfold Admin.matches. rewrite andb_true_iff, !orb_true_iff, !String.eqb_eq.
    reflexivity.
  - intros -> Hterm. unfold Admin.filteredSubmissions.
    induction submissions as [| s rest IH]; [reflexivity |].
    cbn [List.filter]. unfold Admin.matches at 1.
    rewrite Hterm, includes_empty. cbn [String.eqb Ascii.eqb Bool.eqb orb andb].
    now rewrite IH.
Qed.

(** X30. After a delete that the table accepted, no shown row has the
    deleted id, every other row is kept, and deleting the same id again
    changes nothing; after a delete that failed or was rejected, the rows
    are as before. *)
Theorem delete_removes_exactly_the_id
    (target : string) (submissions : list (Admin.Submission number)) :
  (forall s,
      In s (Admin.deleteSubmission (inr None) target submissions)
      <-> In s submissions /\ Admin.id s <> target)
  /\ Admin.deleteSubmission (inr None) target
       (Admin.deleteSubmission (inr None) target submissions)
     = Admin.deleteSubmission (inr None) target submissions
  /\ (forall message,
        Admin.deleteSubmission (inr (Some message)) target submissions = submissions)
  /\ (forall e, Admin.deleteSubmission (inl e) target submissions = submissions).
Proof.
  split; [| split; [| split; reflexivity]].
  - intros s. cbn [Admin.deleteSubmission]. rewrite filter_In.
    rewrite negb_true_iff, String.eqb_neq. reflexivity.
  - cbn [Admin.deleteSubmission].
    induction submissions as [| s rest IH]; [reflexivity |].
    cbn [List.filter].
    destruct (negb (String.eqb (Admin.id s) target)) eqn:Hkeep; [| exact IH].
    cbn [List.filter]. rewrite Hkeep. now rewrite IH.
Qed.

End AdminFacts.

(* ================================================================== *)
(** ** The concrete cases *)
(* ================================================================== *)

Import Cases.

(** A [null] body against an unreachable service. *)
Lemma consult_skips_delegate_iff_unreadable_witness :
  external_calls (trace (Consult.POST (inr JNull) unreachable)) = 0%nat
  /\ outcome (Consult.POST (inr JNull) unreachable)
     = inr (NextResponse_json
              (JObj [("error", JStr "Failed to process consultation request")]) 500).
Proof.
  destruct (consult_skips_delegate_iff_unreadable (inr JNull) unreachable) as [Hiff H500].
  split.
  - apply Hiff. right. reflexivity.
  - apply H500. right. reflexivity.
Defined.

(** A request with a problem only, against an unreachable service. *)
Lemma fallback_prints_undefined_witness :
  outcome (Consult.POST (inr anonymous_request) unreachable)
    = inr (NextResponse_json (Consult.mockResponse "undefined" "undefined") 200)
  /\ recommendations_mention
       (NextResponse_json (@Consult.mockResponse Z "undefined" "undefined") 200)
       "the undefined industry" = true.
Proof.
  apply (fallback_prints_undefined anonymous_request unreachable);
    solve [discriminate | reflexivity].
Defined.

(** An industry with a [toString] property, against an unreachable service. *)
Lemma fallback_throws_on_unprintable_field_witness :
  outcome (Consult.POST (inr odd_industry) unreachable)
  = inr (NextResponse_json
           (JObj [("error", JStr "Failed to process consultation request")]) 500).
Proof.
  apply (fallback_throws_on_unprintable_field odd_industry unreachable
           [("toString", JStr "SaaS")]);
    [discriminate | reflexivity | left; reflexivity | reflexivity].
Defined.

(** A login without a password. *)
Lemma login_validates_before_calling_witness :
  exists r,
    outcome (Login.POST (inr no_password) accepting) = inr r
    /\ (status r = 400%Z
        <-> truthy (get no_password "email") = false
            \/ truthy (get no_password "password") = false)
    /\ (status r = 400%Z ->
        r = NextResponse_json (JObj [("error", JStr "Email and password are required")]) 400
        /\ external_calls (trace (Login.POST (inr no_password) accepting)) = 0%nat)
    /\ (status r <> 400%Z ->
        external_calls (trace (Login.POST (inr no_password) accepting)) = 1%nat).
Proof.
  apply (login_validates_before_calling no_password accepting). discriminate.
Defined.

(** A login that the identity service accepts. *)
Lemma login_success_is_vouched_witness :
  exists body res,
    (inr credentials : request Z) = inr body
    /\ truthy (get body "email") = true
    /\ truthy (get body "password") = true
    /\ accepting (get body "email") (get body "password") = inr res
    /\ auth_error res = None
    /\ truthy (Some (data_user res)) = true
    /\ Http.body
         (NextResponse_json
            (JObj [("success", JBool true); ("user", ada_user); ("session", ada_session)])
            200)
       = JObj [("success", JBool true); ("user", data_user res);
               ("session", data_session res)].
Proof.
  apply (login_success_is_vouched (inr credentials) accepting
           (NextResponse_json
              (JObj [("success", JBool true); ("user", ada_user);
                     ("session", ada_session)]) 200));
    reflexivity.
Defined.

(** A login that the identity service refuses. *)
Lemma login_maps_identity_failures_witness :
  outcome (Login.POST (inr credentials) refusing)
  = inr (NextResponse_json (JObj [("error", JStr "Invalid login credentials")]) 401).
Proof.
  destruct (login_maps_identity_failures credentials refusing) as [Herror _];
    [discriminate | reflexivity | reflexivity |].
  apply (Herror (AuthResult JNull JNull (Some "Invalid login credentials"))
                "Invalid login credentials");
    reflexivity.
Defined.

(** A signup without a name, and a complete one. *)
Lemma signup_validates_before_calling_witness :
  (outcome (Signup.POST (inr no_name) registering)
     = inr (NextResponse_json (JObj [("error", JStr "Missing required fields")]) 400)
   /\ external_calls (trace (Signup.POST (inr no_name) registering)) = 0%nat)
  /\ external_calls (trace (Signup.POST (inr registration) registering)) = 1%nat.
Proof.
  split.
  - apply (proj1 (signup_validates_before_calling no_name registering
                    ltac:(discriminate))).
    right; right; reflexivity.
  - apply (proj2 (signup_validates_before_calling registration registering
                    ltac:(discriminate)));
      reflexivity.
Defined.


(** A signup for an email that is taken. *)
Lemma signup_maps_identity_error_witness :
  outcome (Signup.POST (inr registration) taken)
  = inr (NextResponse_json (JObj [("error", JStr "User already registered")]) 400).
Proof.
  apply (signup_maps_identity_error registration taken
           (AuthResult JNull JNull (Some "User already registered"))
           "User already registered");
    solve [discriminate | reflexivity].
Defined.

(** The form against a server that answers 200 with a body that is not JSON. *)
Lemma handleSubmit_unreadable_answer_witness :
  snd (Form.handleSubmit support_form garbled Form.initial)
  = Form.State false JNull generic_error.
Proof.
  apply (handleSubmit_unreadable_answer support_form garbled Form.initial
           (Fetched 200 "OK" (inl (Rejection "SyntaxError: Unexpected token <")))
           (Rejection "SyntaxError: Unexpected token <"));
    reflexivity.
Defined.

(** The form in front of the gateway, with the service erroring. *)
Lemma form_never_sees_gateway_failure_witness :
  Form.result (snd (Form.handleSubmit support_form (gateway erroring) Form.initial))
  = Consult.mockResponse "SaaS" "SMB".
Proof.
  apply (proj1 (proj2 (proj2 (form_never_sees_gateway_failure
                                support_form erroring Form.initial)))).
  reflexivity.
Defined.

(** A complete analysis. *)
Lemma renderer_keeps_display_order_witness :
  Form.render_results full_analysis
  = ret [Form.AnalysisComplete;
         Form.Card "AI Solution Recommendations" "Deploy a chatbot.";
         Form.Card "Cost Savings" "20%";
         Form.Card "Revenue Potential" "5%";
         Form.Card "Time Savings" "10h";
         Form.Card "ROI Estimate" "150%";
         Form.Card "Risk Reduction" "less fraud";
         Form.Card "Competitive Advantage" "faster";
         Form.Card "Implementation Timeline" "4 months";
         Form.Card "Resource Requirements" "2 engineers";
         Form.Bullets "Key Success Metrics" ["CSAT"; "FRT"];
         Form.Bullets "Success Factors" ["sponsor"];
         Form.Bullets "Potential Challenges" ["data quality"; "adoption"];
         Form.ReadyToImplement].
Proof.
  unfold full_analysis, analysis.
  eapply (renderer_keeps_display_order _ _
            (Some "Deploy a chatbot.") (Some "20%") (Some "5%") (Some "10h")
            (Some "150%") (Some "less fraud") (Some "faster") (Some "4 months")
            (Some "2 engineers") ["CSAT"; "FRT"] ["sponsor"] ["data quality"; "adoption"]);
    reflexivity.
Defined.

(** A result with recommendations only. *)
Lemma renderer_without_impact_witness :
  Form.render_results bare_result
  = ret [Form.AnalysisComplete;
         Form.Card "AI Solution Recommendations" "Deploy a chatbot.";
         Form.ReadyToImplement].
Proof.
  apply (renderer_without_impact bare_result (Some "Deploy a chatbot.")); reflexivity.
Defined.

(** A result whose recommendations are an object. *)
Lemma renderer_rejects_object_child_witness :
  Form.render_results structured_result
  = throw (Error "Objects are not valid as a React child").
Proof.
  apply (renderer_rejects_object_child structured_result
           [("summary", JStr "Deploy a chatbot.")]);
    [reflexivity | reflexivity | left; reflexivity].
Defined.

(** A login that the identity service accepts, from the page. *)
Lemma auth_token_only_on_success_witness :
  "auth_token" = "auth_token"
  /\ Auth.success (snd (Auth.handleSubmit (auth_api accepting registering) login_page))
     = Auth.success_message (Auth.mode login_page)
  /\ Auth.error (snd (Auth.handleSubmit (auth_api accepting registering) login_page))
     = JStr ""
  /\ In (Auth.SetTimeout (Auth.mode login_page) 1500)
        (fst (Auth.handleSubmit (auth_api accepting registering) login_page))
  /\ exists r data,
       auth_api accepting registering (Auth.endpoint (Auth.mode login_page))
         (Auth.request_body (Auth.mode login_page) (Auth.formData login_page)) = inr r
       /\ ok r = true
       /\ fetched_json r = inr data
       /\ truthy (get data "session") = true
       /\ ToString (Form.slot_of (get data "session") "access_token") = Some "tok-1".
Proof.
  apply (auth_token_only_on_success (auth_api accepting registering) login_page
           "auth_token" "tok-1").
  right; left; reflexivity.
Defined.

(** The login page with nothing typed. *)
Lemma auth_login_missing_credentials_witness :
  Auth.handleSubmit (auth_api accepting registering) Auth.initial
  = ([Auth.Post "/api/auth/login" (Auth.request_body Auth.login (Auth.FormData "" "" ""))],
     Auth.State Auth.login false (JStr "Email and password are required") ""
                (Auth.FormData "" "" "")).
Proof.
  apply (auth_login_missing_credentials accepting registering Auth.initial);
    [reflexivity | left; reflexivity].
Defined.

(** The login page against an identity service that refuses. *)
Lemma auth_login_shows_identity_error_witness :
  Auth.handleSubmit (auth_api refusing registering) login_page
  = ([Auth.Post "/api/auth/login"
                (Auth.request_body Auth.login (Auth.formData login_page))],
     Auth.State Auth.login false (JStr "Invalid login credentials") ""
                (Auth.formData login_page)).
Proof.
  destruct (auth_login_shows_identity_error refusing registering login_page)
    as [Herror _]; [reflexivity | discriminate | discriminate |].
  apply (Herror (AuthResult JNull JNull (Some "Invalid login credentials"))
                "Invalid login credentials");
    [reflexivity | reflexivity | discriminate].
Defined.

(** The login page against an identity service that accepts. *)
Lemma auth_login_success_stores_token_witness :
  Auth.handleSubmit (auth_api accepting registering) login_page
    = ([Auth.Post "/api/auth/login"
                  (Auth.request_body Auth.login (Auth.formData login_page));
        Auth.SetItem "auth_token" "tok-1";
        Auth.SetTimeout Auth.login 1500],
       Auth.State Auth.login false (JStr "") "Login successful! Redirecting..."
                  (Auth.formData login_page))
  /\ fst (Auth.timeout_callback Auth.login
            (snd (Auth.handleSubmit (auth_api accepting registering) login_page)))
     = Some "/".
Proof.
  apply (auth_login_success_stores_token accepting registering login_page
           (AuthResult ada_user ada_session None) "tok-1");
    solve [discriminate | reflexivity].
Defined.

(** The signup page against an identity service that registers. *)
Lemma auth_signup_flow_witness :
  Auth.handleSubmit (auth_api accepting registering) signup_page
    = ([Auth.Post "/api/auth/signup"
                  (Auth.request_body Auth.signup (Auth.formData signup_page));
        Auth.SetTimeout Auth.signup 1500],
       Auth.State Auth.signup false (JStr "")
                  "Signup successful! Check your email to verify."
                  (Auth.formData signup_page))
  /\ Auth.timeout_callback Auth.signup
       (snd (Auth.handleSubmit (auth_api accepting registering) signup_page))
     = (None,
        Auth.State Auth.login false (JStr "")
                   "Signup successful! Check your email to verify."
                   (Auth.FormData "" "" "")).
Proof.
  apply (proj2 (auth_signup_flow accepting registering signup_page eq_refl)
           (AuthResult JNull JNull None));
    solve [discriminate | reflexivity].
Defined.

(** The login page against a server that answers 200 with [null]. *)
Lemma auth_submit_body_before_status_witness :
  Auth.success (snd (Auth.handleSubmit null_server login_page))
    = Auth.success_message (Auth.mode login_page)
  /\ Auth.error (snd (Auth.handleSubmit null_server login_page))
     = JStr "An error occurred. Please try again.".
Proof.
  apply (proj1 (auth_submit_body_before_status null_server login_page
                  (Fetched 200 "OK" (inr JNull)) eq_refl));
    reflexivity.
Defined.

(** A user known by email only. *)
Lemma welcome_uses_email_local_part_witness :
  Dashboard.welcome ada = ret ("Welcome back, " ++ Dashboard.before "@" "ada@example.com" ++ "!")
  /\ occurs "@" (Dashboard.before "@" "ada@example.com") = false
  /\ exists rest,
       "ada@example.com" = Dashboard.before "@" "ada@example.com" ++ rest
       /\ (rest = "" \/ exists tail, rest = String "@" tail).
Proof.
  apply (welcome_uses_email_local_part ada "ada@example.com");
    solve [discriminate | reflexivity].
Defined.

(** A user with a full name. *)
Lemma welcome_name_precedence_witness :
  Dashboard.welcome ada_named = ret "Welcome back, Ada L!".
Proof.
  apply (proj1 (welcome_name_precedence ada_named ltac:(discriminate)) "Ada L");
    [reflexivity | discriminate].
Defined.

(** The three rows with no type filter and no search term. *)
Lemma filtered_rows_witness :
  Admin.filteredSubmissions lower (fun _ => "{}") "all" "" rows = rows.
Proof.
  apply (proj2 (filtered_rows lower (fun _ => "{}") "all" "" rows)); reflexivity.
Defined.
